(** * SMI2021 bootloader (smi2021_bl.c): a shallow embedding and its properties

    The driver uploads a firmware image to the EasyCAP bootloader device with
    USB control transfers, after probing which firmware files the host has.
    The C code is embedded as functions in a state monad over the driver's
    global variables and a log of the calls it makes to the kernel
    (request_firmware, release_firmware, usb_control_msg).  Calls to dev_info
    and dev_err only write to the kernel log and are left out. *)

From Stdlib Require Import ZArith.
From Stdlib.Strings Require Import Byte.
From stdpp Require Import base numbers option list strings gmap.

Local Open Scope Z_scope.

(** ** Constants *)

Definition FIRMWARE_CHUNK_SIZE : Z := 62.
Definition FIRMWARE_HEADER_SIZE : Z := 2.

(** errno values of include/uapi/asm-generic/errno-base.h *)
Definition ENOENT : Z := 2.
Definition ENODEV : Z := 19.

(** bmRequestType bits of include/uapi/linux/usb/ch9.h *)
Definition USB_DIR_OUT : Z := 0.
Definition USB_DIR_IN : Z := 0x80.
Definition USB_TYPE_VENDOR : Z := Z.shiftl 0x02 5.
Definition USB_RECIP_DEVICE : Z := 0x00.

(** ** Machine integers *)

(** [int] is 32 bits wide, two's complement. *)
Definition INT_MAX : Z := 2 ^ 31 - 1.
Definition int_wrap (z : Z) : Z := (z + 2 ^ 31) mod 2 ^ 32 - 2 ^ 31.

(** [unsigned int], the type of the module parameter. *)
Definition uint_wrap (z : Z) : Z := z mod 2 ^ 32.

(** [size_t] on a 64-bit kernel; on a 32-bit kernel the conversion of a
    non-negative [int] is the identity as well. *)
Definition BITS_PER_LONG : Z := 64.
Definition to_size_t (z : Z) : Z := z mod 2 ^ BITS_PER_LONG.

#[global] Instance byte_inhabited : Inhabited byte := populate x00.

Definition byte_val (b : byte) : Z := Z.of_N (Byte.to_N b).

Definition u8 (z : Z) : byte :=
  match Byte.of_N (Z.to_N (z mod 256)) with
  | Some b => b
  | None => x00
  end.

(** A [u16] object in memory is two bytes; its value depends on the byte order
    of the host. *)
Definition u16_load (big_endian : bool) (mem : list byte) : Z :=
  let b0 := byte_val (mem !!! 0%nat) in
  let b1 := byte_val (mem !!! 1%nat) in
  if big_endian then Z.lor (Z.shiftl b0 8) b1 else Z.lor (Z.shiftl b1 8) b0.

Definition u16_store (big_endian : bool) (v : Z) : list byte :=
  let lo := u8 (Z.land v 0xff) in
  let hi := u8 (Z.land (Z.shiftr v 8) 0xff) in
  if big_endian then [hi; lo] else [lo; hi].

Definition swab16 (v : Z) : Z :=
  Z.lor (Z.shiftl (Z.land v 0xff) 8) (Z.land (Z.shiftr v 8) 0xff).

Definition __cpu_to_be16 (big_endian : bool) (v : Z) : Z :=
  if big_endian then v else swab16 v.

Definition __cpu_to_le16 (big_endian : bool) (v : Z) : Z :=
  if big_endian then swab16 v else v.

(** ** Data *)

(** [struct smi2021_firmware] *)
Record smi2021_firmware := Smi2021Firmware {
  id : Z;
  name : string;
  found : Z
}.

Definition set_found (f : Z) (d : smi2021_firmware) : smi2021_firmware :=
  {| id := id d; name := name d; found := f |}.

(** [struct firmware]: [size] is the length of [data]. *)
Record firmware_blob := FirmwareBlob {
  fw_data : list byte
}.

Definition fw_size (fw : firmware_blob) : Z := Z.of_nat (length (fw_data fw)).

(** A non-NULL [const struct firmware *]: the address the firmware loader
    allocated the object at, and the (immutable) object it points to. *)
Record fw_ptr := FwPtr {
  fw_addr : nat;
  fw_obj : firmware_blob
}.

(** One call of usb_control_msg.  [pipe_in] and [pipe_ep] are the pipe made by
    usb_rcvctrlpipe / usb_sndctrlpipe; [payload] is the buffer that is sent
    (empty for a read) and [wLength] its size. *)
Record usb_ctrl := UsbCtrl {
  pipe_in : bool;
  pipe_ep : Z;
  bRequest : Z;
  bRequestType : Z;
  wValue : Z;
  wIndex : Z;
  payload : list byte;
  wLength : Z;
  timeout : Z
}.

(** What the driver asks of the kernel, in the order it asks. *)
Inductive kevent :=
  | EvRequestFirmware (fw_name : string)
  | EvReleaseFirmware (addr : nat)
  | EvUsb (x : usb_ctrl).

(** A device answers a control transfer with the return value of
    usb_control_msg (a negative errno, or the number of bytes transferred) and
    the bytes it wrote to the buffer of a read.  The answer may depend on
    everything that happened before. *)
Record usb_device := UsbDevice {
  usb_respond : list kevent → usb_ctrl → Z * list byte
}.

(** request_firmware either finds the file, or fails with [-errno]. *)
Inductive fw_reply :=
  | FwFound (fw : firmware_blob)
  | FwFail (errno : positive).

(** The part of the kernel the driver runs on. *)
Record kernel_env := KernelEnv {
  big_endian : bool;
  kzalloc_ok : bool;
  fw_loader : string → fw_reply
}.

(** The driver's global variables, the firmware objects that are allocated
    and not yet released, and the log of kernel calls. *)
Record kstate := KState {
  available_fw : list smi2021_firmware;
  firmware : list (option fw_ptr);
  firmwares : Z;
  firmware_version : Z;
  fw_live : gset nat;
  fw_next : nat;
  klog : list kevent
}.

(** The static initialisers: [found] is not initialised and so is 0. *)
Definition available_fw_init : list smi2021_firmware :=
  [ {| id := 0x3c; name := "smi2021_3c.bin"; found := 0 |};
    {| id := 0x3e; name := "smi2021_3e.bin"; found := 0 |};
    {| id := 0x3f; name := "smi2021_3f.bin"; found := 0 |} ].

Definition initial_state (version : Z) : kstate :=
  {| available_fw := available_fw_init;
     firmware := replicate (length available_fw_init) None;
     firmwares := -1;
     firmware_version := uint_wrap version;
     fw_live := ∅;
     fw_next := 0;
     klog := [] |}.

(** ** The monad: state, and faults where C has no defined behaviour *)

Inductive fault :=
  | NullDeref
  | OutOfBounds
  | DoubleFree
  | OutOfFuel.

Inductive outcome (A : Type) :=
  | Normal (a : A)
  | Fault (f : fault).
Arguments Normal {A} a.
Arguments Fault {A} f.

Definition M (A : Type) : Type := kstate → outcome A * kstate.

#[global] Instance M_ret : MRet M := λ A a s, (Normal a, s).

#[global] Instance M_bind : MBind M := λ A B k m s,
  match m s with
  | (Normal a, s') => k a s'
  | (Fault f, s') => (Fault f, s')
  end.

Definition ret {A} (a : A) : M A := mret a.
Definition fail {A} (f : fault) : M A := λ s, (Fault f, s).
Definition gets {A} (f : kstate → A) : M A := λ s, (Normal (f s), s).
Definition modify (f : kstate → kstate) : M unit := λ s, (Normal tt, f s).

(** Updates of one global variable. *)
Definition upd_available_fw (l : list smi2021_firmware) (s : kstate) : kstate :=
  {| available_fw := l; firmware := firmware s; firmwares := firmwares s;
     firmware_version := firmware_version s;
     fw_live := fw_live s; fw_next := fw_next s; klog := klog s |}.

Definition upd_firmware (l : list (option fw_ptr)) (s : kstate) : kstate :=
  {| available_fw := available_fw s; firmware := l; firmwares := firmwares s;
     firmware_version := firmware_version s;
     fw_live := fw_live s; fw_next := fw_next s; klog := klog s |}.

Definition upd_firmwares (n : Z) (s : kstate) : kstate :=
  {| available_fw := available_fw s; firmware := firmware s; firmwares := n;
     firmware_version := firmware_version s;
     fw_live := fw_live s; fw_next := fw_next s; klog := klog s |}.

Definition upd_fw_objects (live : gset nat) (next : nat) (s : kstate) : kstate :=
  {| available_fw := available_fw s; firmware := firmware s;
     firmwares := firmwares s; firmware_version := firmware_version s;
     fw_live := live; fw_next := next; klog := klog s |}.

Definition with_klog (s : kstate) (l : list kevent) : kstate :=
  {| available_fw := available_fw s; firmware := firmware s;
     firmwares := firmwares s; firmware_version := firmware_version s;
     fw_live := fw_live s; fw_next := fw_next s; klog := l |}.

Definition log_event (e : kevent) : M unit :=
  modify (λ s, with_klog s (klog s ++ [e])).

Definition set_available_fw (l : list smi2021_firmware) : M unit :=
  modify (upd_available_fw l).

Definition set_firmware (l : list (option fw_ptr)) : M unit :=
  modify (upd_firmware l).

Definition set_firmwares (n : Z) : M unit :=
  modify (upd_firmwares n).

(** Array accesses: an index outside the array is a fault. *)
Definition index_ok {A} (l : list A) (i : Z) : bool :=
  (0 <=? i) && (i <? Z.of_nat (length l)).

Definition read_available_fw (i : nat) : M smi2021_firmware :=
  l ← gets available_fw;
  match l !! i with
  | Some d => ret d
  | None => fail OutOfBounds
  end.

Definition write_found (i : nat) (f : Z) : M unit :=
  l ← gets available_fw;
  match l !! i with
  | Some d => set_available_fw (<[i := set_found f d]> l)
  | None => fail OutOfBounds
  end.

Definition read_firmware (i : Z) : M (option fw_ptr) :=
  l ← gets firmware;
  if index_ok l i then ret (l !!! Z.to_nat i) else fail OutOfBounds.

Definition write_firmware (i : Z) (p : option fw_ptr) : M unit :=
  l ← gets firmware;
  if index_ok l i then set_firmware (<[Z.to_nat i := p]> l)
  else fail OutOfBounds.

(** ** Kernel services *)

(** usb_control_msg: the transfer is logged, the device answers.  For a read
    the bytes the device wrote replace the start of the buffer. *)
Definition overwrite (buf new : list byte) : list byte :=
  take (length buf) (new ++ drop (length new) buf).

Definition usb_control_msg (udev : usb_device) (x : usb_ctrl)
    (buf : list byte) : M (Z * list byte) :=
  hist ← gets klog;
  log_event (EvUsb x);;
  let '(rc, data) := usb_respond udev hist x in
  ret (rc, if pipe_in x then overwrite buf data else buf).

(** kzalloc: zeroed memory, or NULL. *)
Definition kzalloc (env : kernel_env) (size : Z) : M (option (list byte)) :=
  ret (if kzalloc_ok env then Some (replicate (Z.to_nat size) x00) else None).

(** request_firmware(&firmware[slot], name, dev): on success a new firmware
    object is stored through the pointer and 0 is returned; on failure NULL is
    stored and the negative errno is returned. *)
Definition request_firmware (env : kernel_env) (slot : Z) (fw_name : string)
    : M Z :=
  log_event (EvRequestFirmware fw_name);;
  match fw_loader env fw_name with
  | FwFound fw =>
      a ← gets fw_next;
      write_firmware slot (Some {| fw_addr := a; fw_obj := fw |});;
      modify (λ s, upd_fw_objects ({[a]} ∪ fw_live s) (S a) s);;
      ret 0
  | FwFail e =>
      write_firmware slot None;;
      ret (Z.neg e)
  end.

(** release_firmware(fw): nothing for NULL; releasing an object that is not
    allocated is a double free. *)
Definition release_firmware (p : option fw_ptr) : M unit :=
  match p with
  | None => ret tt
  | Some p =>
      live ← gets fw_live;
      if decide (fw_addr p ∈ live) then
        log_event (EvReleaseFirmware (fw_addr p));;
        modify (λ s, upd_fw_objects (fw_live s ∖ {[fw_addr p]}) (fw_next s) s)
      else fail DoubleFree
  end.

(** ** smi2021_load_firmware *)

(** memcpy(dst + at, src + off, n), with the source read inside its object. *)
Definition memcpy_at (dst : list byte) (at_ : Z) (src : list byte) (off n : Z)
    : M (list byte) :=
  if (0 <=? off) && (off + n <=? Z.of_nat (length src)) then
    ret (take (Z.to_nat at_) dst
         ++ take (Z.to_nat n) (drop (Z.to_nat off) src)
         ++ drop (Z.to_nat (at_ + n)) dst)
  else fail OutOfBounds.

Definition handshake_read : usb_ctrl :=
  {| pipe_in := true; pipe_ep := 0x80; bRequest := 0x01;
     bRequestType := Z.lor (Z.lor USB_DIR_IN USB_TYPE_VENDOR) USB_RECIP_DEVICE;
     wValue := 0x0001; wIndex := 0x0000;
     payload := []; wLength := 2; timeout := 1000 |}.

Definition chunk_write (chunk : list byte) (size : Z) : usb_ctrl :=
  {| pipe_in := false; pipe_ep := 0x00; bRequest := 0x01;
     bRequestType := Z.lor (Z.lor USB_DIR_OUT USB_TYPE_VENDOR) USB_RECIP_DEVICE;
     wValue := 0x0005; wIndex := 0x0000;
     payload := chunk; wLength := size; timeout := 1000 |}.

Definition ack_write (ack : list byte) : usb_ctrl :=
  {| pipe_in := false; pipe_ep := 0x00; bRequest := 0x01;
     bRequestType := Z.lor (Z.lor USB_DIR_OUT USB_TYPE_VENDOR) USB_RECIP_DEVICE;
     wValue := 0x0007; wIndex := 0x0000;
     payload := ack; wLength := 2; timeout := 1000 |}.

(** The for loop of lines 133-146, from index [i] on.  [Some rc] is the
    [goto free_out] with that [rc]; [None] is the normal end of the loop. *)
Fixpoint upload_chunks (udev : usb_device) (fw : firmware_blob) (size : Z)
    (fuel : nat) (i : Z) (chunk : list byte) : M (option Z) :=
  match fuel with
  | O => fail OutOfFuel
  | S fuel' =>
      if to_size_t i <? fw_size fw / FIRMWARE_CHUNK_SIZE then
        chunk' ← memcpy_at chunk FIRMWARE_HEADER_SIZE (fw_data fw)
                   (int_wrap (i * FIRMWARE_CHUNK_SIZE)) FIRMWARE_CHUNK_SIZE;
        r ← usb_control_msg udev (chunk_write chunk' size) chunk';
        if fst r <? 0 then ret (Some (fst r))
        else upload_chunks udev fw size fuel' (int_wrap (i + 1)) chunk'
      else ret None
  end.

(** The loop runs at most [size / 62] times and tests its condition once
    more. *)
Definition upload_fuel (fw : firmware_blob) : nat :=
  S (Z.to_nat (fw_size fw / FIRMWARE_CHUNK_SIZE)).

Definition smi2021_load_firmware (env : kernel_env) (udev : option usb_device)
    (fw : option fw_ptr) : M Z :=
  match udev with
  | None => ret 0                                  (* rc = 0; goto end_out *)
  | Some udev =>
      let size := FIRMWARE_CHUNK_SIZE + FIRMWARE_HEADER_SIZE in
      chunk ← kzalloc env size;
      match chunk with
      | None => fail NullDeref       (* chunk[0] is written before the test *)
      | Some chunk =>
          let chunk := <[1%nat := xff]> (<[0%nat := x05]> chunk) in
          match fw with
          | None => ret (- ENODEV)
          | Some fw =>
              let fw := fw_obj fw in
              if negb (fw_size fw mod FIRMWARE_CHUNK_SIZE =? 0) then
                ret (- ENODEV)
              else
                r ← usb_control_msg udev handshake_read
                      (u16_store (big_endian env) 0x0000);
                let rc := fst r in
                let ack := u16_load (big_endian env) (snd r) in
                if rc <? 0 then ret rc
                else if negb (__cpu_to_be16 (big_endian env) ack =? 0x0107)
                then ret rc
                else
                  r ← upload_chunks udev fw size (upload_fuel fw) 0 chunk;
                  match r with
                  | Some rc => ret rc
                  | None =>
                      let ack := u16_store (big_endian env)
                                   (__cpu_to_le16 (big_endian env) 0x0007) in
                      r ← usb_control_msg udev (ack_write ack) ack;
                      let rc := fst r in
                      if rc <? 0 then ret rc else ret 0
                  end
          end
      end
  end.

(** ** The loops over [available_fw] *)

(** [for (i = start; i < start + n; i++) body], where the body may leave the
    function: [Some rc] is a return (or goto) with that value. *)
Fixpoint for_each (n : nat) (i : nat) (body : nat → M (option Z))
    : M (option Z) :=
  match n with
  | O => ret None
  | S n' =>
      r ← body i;
      match r with
      | Some rc => ret (Some rc)
      | None => for_each n' (S i) body
      end
  end.

Definition ARRAY_SIZE_available_fw : M nat :=
  gets (λ s, length (available_fw s)).

(** ** smi2021_choose_firmware *)

Definition choose_one (env : kernel_env) (udev : usb_device) (i : nat)
    : M (option Z) :=
  d ← read_available_fw i;
  v ← gets firmware_version;
  if (v =? uint_wrap (id d)) && (0 <=? found d) then
    fw ← read_firmware (found d);
    rc ← smi2021_load_firmware env (Some udev) fw;
    ret (Some rc)
  else ret None.

Definition smi2021_choose_firmware (env : kernel_env) (udev : usb_device)
    : M Z :=
  n ← ARRAY_SIZE_available_fw;
  r ← for_each n 0 (choose_one env udev);
  match r with
  | Some rc => ret rc
  | None => ret 0
  end.

(** ** smi2021_bootloader_probe *)

(** The body of the loop of lines 191-208.  [firmwares] counts from -1 and
    stays below the size of the array, so its increment is not wrapped. *)
Definition probe_one (env : kernel_env) (i : nat) : M (option Z) :=
  d ← read_available_fw i;
  n ← gets firmwares;
  rc ← request_firmware env (n + 1) (name d);
  if rc =? 0 then
    set_firmwares (n + 1);;
    write_found i (n + 1);;
    ret None
  else if rc =? - ENOENT then
    write_found i (-1);;
    ret None
  else ret (Some rc).

Definition probe_all (env : kernel_env) : M (option Z) :=
  n ← ARRAY_SIZE_available_fw;
  for_each n 0 (probe_one env).

(** Lines 210-223: what is done with the firmwares that were found. *)
Definition probe_select (env : kernel_env) (udev : usb_device) : M Z :=
  n ← gets firmwares;
  if n <? 0 then ret (- ENODEV)
  else if n =? 0 then
    fw ← read_firmware 0;
    rc ← smi2021_load_firmware env (Some udev) fw;
    if rc <? 0 then ret rc else ret 0
  else
    smi2021_choose_firmware env udev;;
    ret 0.

Definition smi2021_bootloader_probe (env : kernel_env) (udev : usb_device)
    : M Z :=
  r ← probe_all env;
  match r with
  | Some rc => ret rc
  | None => probe_select env udev
  end.

(** ** smi2021_bootloader_disconnect *)

Definition disconnect_one (i : nat) : M (option Z) :=
  d ← read_available_fw i;
  if 0 <=? found d then
    fw ← read_firmware (found d);
    release_firmware fw;;
    write_firmware (found d) None;;
    write_found i (-1);;
    ret None
  else ret None.

Definition smi2021_bootloader_disconnect : M unit :=
  n ← ARRAY_SIZE_available_fw;
  for_each n 0 disconnect_one;;
  set_firmwares (-1).

(** ** Example devices, loaders and images *)

Definition mk_env (be : bool) (loader : string → fw_reply) : kernel_env :=
  {| big_endian := be; kzalloc_ok := true; fw_loader := loader |}.

Definition no_files : string → fw_reply := λ _, FwFail 2.

(** A device that answers the handshake with [01 07] and accepts writes. *)
Definition good_device : usb_device :=
  {| usb_respond := λ _ x,
       if pipe_in x then (2, [x01; x07]) else (wLength x, []) |}.

(** A device that answers every read with [reply], [n] bytes long. *)
Definition device_replying (n : Z) (reply : list byte) : usb_device :=
  {| usb_respond := λ _ x,
       if pipe_in x then (n, reply) else (wLength x, []) |}.

Definition blob_of_size (n : nat) : fw_ptr :=
  {| fw_addr := 0; fw_obj := {| fw_data := replicate n x2a |} |}.

(** A loader that has the files in [files] and no others. *)
Definition loader_of (files : list (string * firmware_blob)) : string → fw_reply :=
  λ n, match list_find (λ f, bool_decide (fst f = n)) files with
       | Some (_, f) => FwFound (snd f)
       | None => FwFail 2
       end.

Definition blob_3c : firmware_blob := {| fw_data := replicate 62 x3c |}.
Definition blob_3e : firmware_blob := {| fw_data := replicate 124 x3e |}.
Definition blob_3f : firmware_blob := {| fw_data := replicate 62 x3f |}.


(** Two of the three firmware files are installed. *)
Definition two_files : string → fw_reply :=
  loader_of [("smi2021_3e.bin"%string, blob_3e);
             ("smi2021_3f.bin"%string, blob_3f)].

(** The second file cannot be read: request_firmware fails with -EIO. *)
Definition unreadable_3e : string → fw_reply :=
  λ n, if bool_decide (n = "smi2021_3e.bin"%string) then FwFail 5
       else FwFail 2.

(** smi2021_3c.bin is installed and every other file cannot be read:
    request_firmware fails with -EIO. *)
Definition first_then_eio : string → fw_reply :=
  λ n, if bool_decide (n = "smi2021_3c.bin"%string) then FwFound blob_3c
       else FwFail 5.

(** Only smi2021_3c.bin is installed. *)
Definition only_3c : string → fw_reply :=
  loader_of [("smi2021_3c.bin"%string, blob_3c)].
(** Everything but the log: the driver's globals and the firmware objects. *)
Definition host_state (s : kstate)
    : list smi2021_firmware * list (option fw_ptr) * Z * Z * gset nat * nat :=
  (available_fw s, firmware s, firmwares s, firmware_version s,
   fw_live s, fw_next s).

(** The control transfers in a log. *)
Definition usb_transfers (l : list kevent) : list usb_ctrl :=
  omap (λ e, match e with EvUsb x => Some x | _ => None end) l.

Definition usb_writes (l : list kevent) : list usb_ctrl :=
  filter (λ x, pipe_in x = false) (usb_transfers l).

(** The [i]-th chunk as it is sent: the header and the [i]-th slice. *)
Definition chunk_payload (fw : firmware_blob) (i : nat) : list byte :=
  [x05; xff] ++ take 62 (drop (62 * i) (fw_data fw)).

Definition chunk_xfer (fw : firmware_blob) (i : nat) : usb_ctrl :=
  chunk_write (chunk_payload fw i) 64.

Definition ack_xfer : usb_ctrl := ack_write [x07; x00].

(** The log of an upload once the handshake and [n] chunks are sent. *)
Definition upload_log (fw : firmware_blob) (n : nat) : list kevent :=
  EvUsb handshake_read :: (EvUsb ∘ chunk_xfer fw <$> seq 0 n).

(** The host-side state is not touched by an upload. *)
Definition frame {A} (m : M A) : Prop :=
  ∀ s, host_state (snd (m s)) = host_state s.

(** A device that accepts the first [n] writes and refuses the others with
    -EPIPE. *)
Definition device_failing_after (n : nat) : usb_device :=
  {| usb_respond := λ hist x,
       if pipe_in x then (2, [x01; x07])
       else if bool_decide (length (usb_writes hist) < n)%nat
            then (wLength x, []) else (-32, []) |}.

(** ** What the probe is expected to leave behind *)

(** The image the loader has for a descriptor, if it has one. *)
Definition loaded (env : kernel_env) (d : smi2021_firmware)
    : option firmware_blob :=
  match fw_loader env (name d) with
  | FwFound fw => Some fw
  | FwFail _ => None
  end.

(** The images found, in the order of the descriptors. *)
Definition found_blobs (env : kernel_env) (ds : list smi2021_firmware)
    : list firmware_blob :=
  omap (loaded env) ds.

(** A reply that ends the probe: a failure other than -ENOENT. *)
Definition is_fatal (r : fw_reply) : option Z :=
  match r with
  | FwFound _ => None
  | FwFail e => if Z.neg e =? - ENOENT then None else Some (Z.neg e)
  end.

(** The descriptors before the first fatal reply, the descriptors up to and
    with it, and its error code. *)
Fixpoint probed (env : kernel_env) (ds : list smi2021_firmware)
    : list smi2021_firmware :=
  match ds with
  | [] => []
  | d :: ds' =>
      match is_fatal (fw_loader env (name d)) with
      | Some _ => []
      | None => d :: probed env ds'
      end
  end.

Fixpoint requested (env : kernel_env) (ds : list smi2021_firmware)
    : list smi2021_firmware :=
  match ds with
  | [] => []
  | d :: ds' =>
      match is_fatal (fw_loader env (name d)) with
      | Some _ => [d]
      | None => d :: requested env ds'
      end
  end.

Fixpoint fatal_code (env : kernel_env) (ds : list smi2021_firmware)
    : option Z :=
  match ds with
  | [] => None
  | d :: ds' =>
      match is_fatal (fw_loader env (name d)) with
      | Some rc => Some rc
      | None => fatal_code env ds'
      end
  end.

(** Descriptors whose request does not end the probe. *)
Definition harmless (env : kernel_env) (d : smi2021_firmware) : Prop :=
  is_fatal (fw_loader env (name d)) = None.

(** The pointers request_firmware returns for [blobs] when the next free
    address is [a]. *)
Definition fresh_ptrs (a : nat) (blobs : list firmware_blob) : list fw_ptr :=
  imap (λ j b, {| fw_addr := a + j; fw_obj := b |}) blobs.

(** Slots in registration order: the next variant found gets slot [k]. *)
Fixpoint assign_slots (env : kernel_env) (k : nat)
    (ds : list smi2021_firmware) : list smi2021_firmware :=
  match ds with
  | [] => []
  | d :: ds' =>
      match loaded env d with
      | Some _ => set_found (Z.of_nat k) d :: assign_slots env (S k) ds'
      | None => set_found (-1) d :: assign_slots env k ds'
      end
  end.

(** [slots k ds n]: the descriptors of [ds] that are present hold the slots
    [k], [k + 1], ..., [n - 1] in this order, and the others hold -1. *)
Inductive slots : nat → list smi2021_firmware → nat → Prop :=
  | slots_nil k : slots k [] k
  | slots_absent k d ds n :
      found d = -1 → slots k ds n → slots k (d :: ds) n
  | slots_present k d ds n :
      found d = Z.of_nat k → slots (S k) ds n → slots k (d :: ds) n.

(** The state of the catalog after a probe: [ptrs] are the loaded images,
    slot by slot. *)
Definition catalog (s : kstate) (ptrs : list fw_ptr) : Prop :=
  firmwares s = Z.of_nat (length ptrs) - 1
  ∧ slots 0 (available_fw s) (length ptrs)
  ∧ (∀ j p, ptrs !! j = Some p → firmware s !! j = Some (Some p))
  ∧ NoDup (fw_addr <$> ptrs)
  ∧ (∀ p, p ∈ ptrs → fw_addr p ∈ fw_live s).

(** Nothing is loaded: every descriptor is absent and the count is reset. *)
Definition nothing_loaded (s : kstate) : Prop :=
  Forall (λ d, found d = -1) (available_fw s) ∧ firmwares s = -1.

(** ** The selection policy in the words of the specification *)


(** The image a descriptor resolves to: its slot of the table of loaded
    images, when it has a slot. *)
Definition descriptor_image (s : kstate) (d : smi2021_firmware)
    : option fw_ptr :=
  if 0 <=? found d then mjoin (firmware s !! Z.to_nat (found d)) else None.

(** The catalog as the selection sees it: identifier and resolved image. *)
Definition catalog_view (s : kstate) : list (Z * option fw_ptr) :=
  (λ d, (id d, descriptor_image s d)) <$> available_fw s.

(** The first present descriptor with the preferred identifier. *)
Fixpoint find_preferred (v : Z) (cat : list (Z * option fw_ptr))
    : option fw_ptr :=
  match cat with
  | [] => None
  | (i, Some img) :: cat' => if i =? v then Some img else find_preferred v cat'
  | (_, None) :: cat' => find_preferred v cat'
  end.




(** A descriptor is absent, or its slot holds an image. *)
Definition resolved (s : kstate) (d : smi2021_firmware) : Prop :=
  found d = -1
  ∨ ∃ (j : nat) (p : fw_ptr),
      found d = Z.of_nat j ∧ firmware s !! j = Some (Some p).

(** Identifiers are positive [int]s, as in the table of the driver; 0 is the
    value of the module parameter when the operator gave none. *)
Definition id_ok (d : smi2021_firmware) : Prop := 0 < id d ≤ INT_MAX.

(** What the caller of smi2021_load_firmware sees when it keeps the return
    value in [Some]. *)
Definition returned (r : outcome Z * kstate) : outcome (option Z) * kstate :=
  (match fst r with Normal rc => Normal (Some rc) | Fault f => Fault f end,
   snd r).

(** The state after a probe that found smi2021_3e.bin and smi2021_3f.bin. *)
Definition ptr_3e : fw_ptr := {| fw_addr := 0; fw_obj := blob_3e |}.
Definition ptr_3f : fw_ptr := {| fw_addr := 1; fw_obj := blob_3f |}.

Definition probed_two_files (version : Z) : kstate :=
  {| available_fw :=
       [ {| id := 0x3c; name := "smi2021_3c.bin"; found := -1 |};
         {| id := 0x3e; name := "smi2021_3e.bin"; found := 0 |};
         {| id := 0x3f; name := "smi2021_3f.bin"; found := 1 |} ];
     firmware := [Some ptr_3e; Some ptr_3f; None];
     firmwares := 1;
     firmware_version := version;
     fw_live := {[0%nat; 1%nat]};
     fw_next := 2;
     klog := [] |}.

(** Everything an upload can put on the wire for an image of [n] chunks: the
    handshake read, the chunks in order, the completion write. *)
Definition full_upload_log (fw : firmware_blob) (n : nat) : list kevent :=
  upload_log fw n ++ [EvUsb ack_xfer].

(** The image bytes a chunk write carries: its payload without the header. *)
Definition chunk_body (x : usb_ctrl) : list byte :=
  drop (Z.to_nat FIRMWARE_HEADER_SIZE) (payload x).

(** A device that answers the handshake and accepts every chunk, but refuses
    the completion write (wValue 0x0007) with -EPIPE. *)
Definition device_refusing_ack : usb_device :=
  {| usb_respond := λ _ x,
       if pipe_in x then (2, [x01; x07])
       else if wValue x =? 0x0007 then (-32, []) else (wLength x, []) |}.

(** A device that answers every read with [01 07] and accepts every write. *)
Definition accepting (udev : usb_device) : Prop :=
  (∀ hist x, pipe_in x = true →
     0 ≤ fst (usb_respond udev hist x)
     ∧ snd (usb_respond udev hist x) = [x01; x07])
  ∧ (∀ hist x, pipe_in x = false → 0 ≤ fst (usb_respond udev hist x)).


(** The allocator of firmware objects never hands out a live address. *)
Definition fresh_next (s : kstate) : Prop :=
  ∀ a, a ∈ fw_live s → (a < fw_next s)%nat.

(** All three firmware files are installed. *)
Definition three_files : string → fw_reply :=
  loader_of [("smi2021_3c.bin"%string, blob_3c);
             ("smi2021_3e.bin"%string, blob_3e);
             ("smi2021_3f.bin"%string, blob_3f)].

(** Only smi2021_3e.bin is installed. *)
Definition one_file : string → fw_reply :=
  loader_of [("smi2021_3e.bin"%string, blob_3e)].

(** The image bytes sent in a log: the payloads of its chunk writes (the
    transfers with value 0x0005) without their headers, end to end. *)
Definition image_bytes_sent (l : list kevent) : list byte :=
  mjoin (chunk_body <$> filter (λ x, wValue x = 0x0005) (usb_transfers l)).

(** What an upload appended to the log. *)
Definition upload_sent (env : kernel_env) (udev : usb_device) (p : fw_ptr)
    (s : kstate) : list kevent :=
  drop (length (klog s))
    (klog (snd (smi2021_load_firmware env (Some udev) (Some p) s))).

(** An attach that fails while reading the second file, then an attach with
    only the first file installed, then the detach. *)
Definition after_failed_attach : kstate :=
  snd (smi2021_bootloader_probe (mk_env false first_then_eio) good_device
         (initial_state 0)).

Definition after_second_attach : kstate :=
  snd (smi2021_bootloader_probe (mk_env false only_3c) good_device
         after_failed_attach).

Definition after_detach : kstate :=
  snd (smi2021_bootloader_disconnect after_second_attach).

(** The addresses of the firmware objects released in a log. *)
Definition released (l : list kevent) : list nat :=
  omap (λ e, match e with EvReleaseFirmware a => Some a | _ => None end) l.
(** * Properties *)

(** ** Reasoning about the monad *)

Lemma run_bind {A B} (m : M A) (k : A → M B) (s : kstate) :
  (m ≫= k) s =
  match m s with
  | (Normal a, s') => k a s'
  | (Fault f, s') => (Fault f, s')
  end.
Proof. reflexivity. Qed.

Lemma run_ret {A} (a : A) (s : kstate) : ret a s = (Normal a, s).
Proof. reflexivity. Qed.

Lemma run_gets {A} (f : kstate → A) (s : kstate) : gets f s = (Normal (f s), s).
Proof. reflexivity. Qed.

Lemma with_klog_id (s : kstate) : with_klog s (klog s) = s.
Proof. by destruct s. Qed.

Lemma with_klog_twice (s : kstate) l l' :
  with_klog (with_klog s l) l' = with_klog s l'.
Proof. reflexivity. Qed.

Lemma run_usb_control_msg (udev : usb_device) (x : usb_ctrl) buf s :
  usb_control_msg udev x buf s =
  (Normal (fst (usb_respond udev (klog s) x),
           if pipe_in x
           then overwrite buf (snd (usb_respond udev (klog s) x))
           else buf),
   with_klog s (klog s ++ [EvUsb x])).
Proof.
  unfold usb_control_msg. rewrite run_bind, run_gets. simpl.
  by destruct (usb_respond udev (klog s) x).
Qed.

(** ** The byte order of the handshake *)

Lemma handshake_reply_accepted (be : bool) :
  __cpu_to_be16 be (u16_load be [x01; x07]) = 0x0107.
Proof. by destruct be. Qed.

Lemma completion_payload (be : bool) :
  u16_store be (__cpu_to_le16 be 0x0007) = [x07; x00].
Proof. by destruct be. Qed.

Lemma byte_val_range (b : byte) : 0 ≤ byte_val b < 256.
Proof.
  unfold byte_val. pose proof (Byte.to_N_bounded b). lia.
Qed.

Lemma byte_val_inj (b b' : byte) : byte_val b = byte_val b' → b = b'.
Proof.
  unfold byte_val. intros H. apply Z2N.inj_iff in H; try lia.
  rewrite !N2Z.id in H.
  pose proof (Byte.of_to_N b) as Hb. rewrite H, Byte.of_to_N in Hb.
  congruence.
Qed.

(** Both byte orders, checked on every pair of byte values. *)
Lemma be16_of_pair_checked :
  forallb (λ a, forallb (λ b,
     (Z.lor (Z.shiftl (Z.of_nat a) 8) (Z.of_nat b)
      =? 256 * Z.of_nat a + Z.of_nat b)
     && (swab16 (Z.lor (Z.shiftl (Z.of_nat b) 8) (Z.of_nat a))
         =? 256 * Z.of_nat a + Z.of_nat b))
     (seq 0 256)) (seq 0 256) = true.
Proof. by vm_compute. Qed.

(** Whatever the byte order of the host, the handshake test reads the two
    bytes of the answer as a big-endian number. *)
Lemma cpu_to_be16_load (be : bool) (b0 b1 : byte) :
  __cpu_to_be16 be (u16_load be [b0; b1]) = 256 * byte_val b0 + byte_val b1.
Proof.
  pose proof (byte_val_range b0) as H0. pose proof (byte_val_range b1) as H1.
  pose proof be16_of_pair_checked as Hall.
  rewrite forallb_forall in Hall.
  specialize (Hall (Z.to_nat (byte_val b0))).
  rewrite forallb_forall in Hall.
  specialize (Hall ltac:(apply in_seq; lia) (Z.to_nat (byte_val b1))
                ltac:(apply in_seq; lia)).
  rewrite !Z2Nat.id in Hall by lia.
  apply andb_prop in Hall as [Hbe Hle].
  apply Z.eqb_eq in Hbe, Hle.
  unfold __cpu_to_be16, u16_load. cbn [lookup_total list_lookup_total].
  by destruct be.
Qed.

Lemma handshake_test_bytes (be : bool) (b0 b1 : byte) :
  __cpu_to_be16 be (u16_load be [b0; b1]) = 0x0107 → b0 = x01 ∧ b1 = x07.
Proof.
  rewrite cpu_to_be16_load.
  pose proof (byte_val_range b0) as H0. pose proof (byte_val_range b1) as H1.
  intros H. split; apply byte_val_inj.
  - change (byte_val x01) with 1. lia.
  - change (byte_val x07) with 7. lia.
Qed.

(** ** The upload: smi2021_load_firmware *)

Lemma upload_log_S fw n :
  upload_log fw (S n) = upload_log fw n ++ [EvUsb (chunk_xfer fw n)].
Proof.
  unfold upload_log. rewrite seq_S, fmap_app. reflexivity.
Qed.

Lemma int_wrap_small z : - 2 ^ 31 ≤ z ≤ INT_MAX → int_wrap z = z.
Proof.
  unfold int_wrap, INT_MAX. intros H.
  rewrite Z.mod_small; lia.
Qed.

Lemma to_size_t_small z : 0 ≤ z ≤ INT_MAX → to_size_t z = z.
Proof.
  unfold to_size_t, INT_MAX, BITS_PER_LONG. intros H.
  rewrite Z.mod_small; lia.
Qed.

Section Upload.
Context (udev : usb_device) (fw : firmware_blob) (N : nat).
Hypothesis Hsize : length (fw_data fw) = (62 * N)%nat.
Hypothesis Hint : fw_size fw ≤ INT_MAX.

Lemma fw_size_div : fw_size fw / FIRMWARE_CHUNK_SIZE = Z.of_nat N.
Proof.
  unfold fw_size, FIRMWARE_CHUNK_SIZE. rewrite Hsize.
  rewrite Nat2Z.inj_mul. rewrite Z.mul_comm. by rewrite Z.div_mul.
Qed.

Lemma fw_size_mod : fw_size fw mod FIRMWARE_CHUNK_SIZE = 0.
Proof.
  unfold fw_size, FIRMWARE_CHUNK_SIZE. rewrite Hsize.
  rewrite Nat2Z.inj_mul. rewrite Z.mul_comm. by rewrite Z.mod_mul.
Qed.

Lemma memcpy_chunk (i : nat) (chunk : list byte) s :
  (i < N)%nat → length chunk = 64%nat → take 2 chunk = [x05; xff] →
  memcpy_at chunk FIRMWARE_HEADER_SIZE (fw_data fw)
    (int_wrap (Z.of_nat i * FIRMWARE_CHUNK_SIZE)) FIRMWARE_CHUNK_SIZE s
  = (Normal (chunk_payload fw i), s).
Proof.
  intros Hi Hlen Hhdr. pose proof Hint as Hmax. pose proof Hsize as Hsz.
  unfold memcpy_at, FIRMWARE_CHUNK_SIZE, FIRMWARE_HEADER_SIZE, INT_MAX,
    fw_size in *.
  rewrite int_wrap_small by (unfold INT_MAX; lia).
  rewrite andb_true_intro by (split; [apply Z.leb_le | apply Z.leb_le]; lia).
  rewrite run_ret. unfold chunk_payload.
  change (Z.to_nat 2) with 2%nat. change (Z.to_nat 62) with 62%nat.
  change (Z.to_nat (2 + 62)) with 64%nat.
  rewrite Hhdr, (drop_ge chunk) by lia. rewrite app_nil_r.
  by replace (Z.to_nat (Z.of_nat i * 62)) with (62 * i)%nat by lia.
Qed.

Lemma chunk_payload_length (i : nat) :
  (i < N)%nat → length (chunk_payload fw i) = 64%nat.
Proof.
  intros Hi. unfold chunk_payload.
  pose proof Hsize as Hsz.
  rewrite length_app, length_take, length_drop. cbn [length]. lia.
Qed.

(** The loop when the device accepts every remaining chunk. *)
Lemma upload_chunks_complete (L0 : list kevent) (n : nat) :
  ∀ (i : nat) (fuel : nat) (chunk : list byte) (s : kstate),
    (i + n = N)%nat → (n < fuel)%nat →
    length chunk = 64%nat → take 2 chunk = [x05; xff] →
    klog s = L0 ++ upload_log fw i →
    (∀ j, (i ≤ j < N)%nat →
       0 ≤ fst (usb_respond udev (L0 ++ upload_log fw j) (chunk_xfer fw j))) →
    upload_chunks udev fw 64 fuel (Z.of_nat i) chunk s
    = (Normal None, with_klog s (L0 ++ upload_log fw N)).
Proof.
  induction n as [|n IH]; intros i fuel chunk s HiN Hfuel Hlen Hhdr Hlog Hdev.
  - destruct fuel as [|fuel]; [lia|]. simpl.
    pose proof Hint as Hmax. pose proof Hsize as Hsz.
    unfold fw_size, INT_MAX in Hmax.
    rewrite fw_size_div, to_size_t_small by (unfold INT_MAX; lia).
    replace (Z.of_nat i <? Z.of_nat N) with false
      by (symmetry; apply Z.ltb_ge; lia).
    rewrite run_ret. replace N with i by lia.
    by rewrite <- Hlog, with_klog_id.
  - destruct fuel as [|fuel]; [lia|]. simpl.
    pose proof Hint as Hmax. pose proof Hsize as Hsz.
    unfold fw_size, INT_MAX in Hmax.
    rewrite fw_size_div, to_size_t_small by (unfold INT_MAX; lia).
    replace (Z.of_nat i <? Z.of_nat N) with true
      by (symmetry; apply Z.ltb_lt; lia).
    rewrite run_bind, memcpy_chunk by (done || lia).
    rewrite run_bind, run_usb_control_msg. cbn [fst snd].
    rewrite Hlog.
    replace (_ <? 0) with false
      by (symmetry; apply Z.ltb_ge, Hdev; lia).
    rewrite int_wrap_small by (unfold INT_MAX; lia).
    replace (Z.of_nat i + 1) with (Z.of_nat (S i)) by lia.
    rewrite (IH (S i) fuel); try lia.
    + done.
    + by apply chunk_payload_length; lia.
    + done.
    + simpl. by rewrite upload_log_S, app_assoc.
    + intros j Hj. apply Hdev. lia.
Qed.

(** The loop when chunk [i + n] is the first the device refuses. *)
Lemma upload_chunks_abort (L0 : list kevent) (rc : Z) (n : nat) :
  ∀ (i : nat) (fuel : nat) (chunk : list byte) (s : kstate),
    (i + n < N)%nat → (n < fuel)%nat →
    length chunk = 64%nat → take 2 chunk = [x05; xff] →
    klog s = L0 ++ upload_log fw i →
    (∀ j, (i ≤ j < i + n)%nat →
       0 ≤ fst (usb_respond udev (L0 ++ upload_log fw j) (chunk_xfer fw j))) →
    fst (usb_respond udev (L0 ++ upload_log fw (i + n))
           (chunk_xfer fw (i + n))) = rc →
    rc < 0 →
    upload_chunks udev fw 64 fuel (Z.of_nat i) chunk s
    = (Normal (Some rc), with_klog s (L0 ++ upload_log fw (S (i + n)))).
Proof.
  induction n as [|n IH];
    intros i fuel chunk s HiN Hfuel Hlen Hhdr Hlog Hdev Hrc Hneg.
  - destruct fuel as [|fuel]; [lia|]. simpl.
    pose proof Hint as Hmax. pose proof Hsize as Hsz.
    unfold fw_size, INT_MAX in Hmax.
    rewrite fw_size_div, to_size_t_small by (unfold INT_MAX; lia).
    replace (Z.of_nat i <? Z.of_nat N) with true
      by (symmetry; apply Z.ltb_lt; lia).
    rewrite run_bind, memcpy_chunk by (done || lia).
    rewrite run_bind, run_usb_control_msg. cbn [fst snd].
    change (chunk_write (chunk_payload fw i) 64) with (chunk_xfer fw i).
    rewrite Hlog. rewrite Nat.add_0_r in Hrc. rewrite Hrc.
    replace (rc <? 0) with true by (symmetry; apply Z.ltb_lt; lia).
    rewrite run_ret, Nat.add_0_r. simpl.
    by rewrite upload_log_S, app_assoc.
  - destruct fuel as [|fuel]; [lia|]. simpl.
    pose proof Hint as Hmax. pose proof Hsize as Hsz.
    unfold fw_size, INT_MAX in Hmax.
    rewrite fw_size_div, to_size_t_small by (unfold INT_MAX; lia).
    replace (Z.of_nat i <? Z.of_nat N) with true
      by (symmetry; apply Z.ltb_lt; lia).
    rewrite run_bind, memcpy_chunk by (done || lia).
    rewrite run_bind, run_usb_control_msg. cbn [fst snd].
    rewrite Hlog.
    replace (_ <? 0) with false
      by (symmetry; apply Z.ltb_ge, Hdev; lia).
    rewrite int_wrap_small by (unfold INT_MAX; lia).
    replace (Z.of_nat i + 1) with (Z.of_nat (S i)) by lia.
    replace (i + S n)%nat with (S i + n)%nat in * by lia.
    rewrite (IH (S i) fuel); try lia.
    + done.
    + by apply chunk_payload_length; lia.
    + done.
    + simpl. by rewrite upload_log_S, app_assoc.
    + intros j Hj. apply Hdev. lia.
Qed.
End Upload.

Lemma run_kzalloc env size s :
  kzalloc_ok env = true →
  kzalloc env size s = (Normal (Some (replicate (Z.to_nat size) x00)), s).
Proof. intros H. unfold kzalloc. by rewrite H. Qed.

(** The start of an upload up to the answer to the handshake. *)
Lemma load_firmware_handshake env udev p s :
  kzalloc_ok env = true →
  fw_size (fw_obj p) mod FIRMWARE_CHUNK_SIZE = 0 →
  smi2021_load_firmware env (Some udev) (Some p) s =
  let r := usb_respond udev (klog s) handshake_read in
  let s1 := with_klog s (klog s ++ [EvUsb handshake_read]) in
  let ack := u16_load (big_endian env)
               (overwrite (u16_store (big_endian env) 0x0000) (snd r)) in
  if fst r <? 0 then (Normal (fst r), s1)
  else if negb (__cpu_to_be16 (big_endian env) ack =? 0x0107)
  then (Normal (fst r), s1)
  else
    (r ← upload_chunks udev (fw_obj p)
           (FIRMWARE_CHUNK_SIZE + FIRMWARE_HEADER_SIZE)
           (upload_fuel (fw_obj p)) 0
           (<[1%nat := xff]> (<[0%nat := x05]>
              (replicate (Z.to_nat (FIRMWARE_CHUNK_SIZE + FIRMWARE_HEADER_SIZE))
                 x00)));
     match r with
     | Some rc => ret rc
     | None =>
         let ack := u16_store (big_endian env)
                      (__cpu_to_le16 (big_endian env) 0x0007) in
         r ← usb_control_msg udev (ack_write ack) ack;
         if fst r <? 0 then ret (fst r) else ret 0
     end) s1.
Proof.
  intros Hk Hmod. unfold smi2021_load_firmware.
  rewrite run_bind, run_kzalloc by done.
  rewrite Hmod. cbn [Z.eqb negb].
  rewrite run_bind, run_usb_control_msg. cbn [fst snd pipe_in handshake_read].
  destruct (_ <? 0); [done|].
  by destruct (negb _).
Qed.

Lemma frame_ret {A} (a : A) : frame (ret a).
Proof. by intros s. Qed.

Lemma frame_fail {A} (f : fault) : frame (@fail A f).
Proof. by intros s. Qed.

Lemma frame_bind {A B} (m : M A) (k : A → M B) :
  frame m → (∀ a, frame (k a)) → frame (m ≫= k).
Proof.
  intros Hm Hk s. rewrite run_bind. specialize (Hm s).
  destruct (m s) as [[a|f] s']; simpl in *; [|done].
  by rewrite Hk.
Qed.

Lemma frame_usb_control_msg udev x buf : frame (usb_control_msg udev x buf).
Proof. intros s. by rewrite run_usb_control_msg. Qed.

Lemma frame_memcpy_at dst at_ src off n : frame (memcpy_at dst at_ src off n).
Proof. unfold memcpy_at. destruct (_ && _); [apply frame_ret|apply frame_fail]. Qed.

Lemma frame_upload_chunks udev fw size fuel :
  ∀ i chunk, frame (upload_chunks udev fw size fuel i chunk).
Proof.
  induction fuel as [|fuel IH]; intros i chunk; simpl.
  - apply frame_fail.
  - destruct (_ <? _); [|apply frame_ret].
    apply frame_bind; [apply frame_memcpy_at|]. intros chunk'.
    apply frame_bind; [apply frame_usb_control_msg|]. intros r.
    destruct (_ <? 0); [apply frame_ret|apply IH].
Qed.

Lemma frame_load_firmware env udev fw :
  frame (smi2021_load_firmware env udev fw).
Proof.
  unfold smi2021_load_firmware. destruct udev as [udev|]; [|apply frame_ret].
  apply frame_bind; [by intros s|]. intros [chunk|]; [|apply frame_fail].
  destruct fw as [p|]; [|apply frame_ret].
  destruct (negb _); [apply frame_ret|].
  apply frame_bind; [apply frame_usb_control_msg|]. intros r.
  cbn zeta. destruct (_ <? 0); [apply frame_ret|].
  destruct (negb _); [apply frame_ret|].
  apply frame_bind; [apply frame_upload_chunks|]. intros [rc|]; [apply frame_ret|].
  apply frame_bind; [apply frame_usb_control_msg|]. intros r'.
  destruct (_ <? 0); apply frame_ret.
Qed.

Lemma initial_chunk :
  let chunk := <[1%nat := xff]> (<[0%nat := x05]>
     (replicate (Z.to_nat (FIRMWARE_CHUNK_SIZE + FIRMWARE_HEADER_SIZE)) x00)) in
  length chunk = 64%nat ∧ take 2 chunk = [x05; xff].
Proof. by vm_compute. Qed.

(** A failed handshake, in general: the transfer failed, or the answer is not
    the two bytes the driver waits for.  One control transfer is made, the
    read, and the return value is the one of usb_control_msg. *)
Lemma handshake_failure_run env udev p s :
  kzalloc_ok env = true →
  fw_size (fw_obj p) mod FIRMWARE_CHUNK_SIZE = 0 →
  let r := usb_respond udev (klog s) handshake_read in
  fst r < 0 ∨ overwrite [x00; x00] (snd r) ≠ [x01; x07] →
  smi2021_load_firmware env (Some udev) (Some p) s
  = (Normal (fst r), with_klog s (klog s ++ [EvUsb handshake_read])).
Proof.
  intros Hk Hmod r Hbad. rewrite load_firmware_handshake by done.
  cbn zeta. fold r.
  destruct (fst r <? 0) eqn:Hrc; [done|].
  destruct Hbad as [Hneg|Hbytes]; [apply Z.ltb_ge in Hrc; lia|].
  replace (u16_store (big_endian env) 0) with [x00; x00]
    by (by destruct (big_endian env)).
  assert (length (overwrite [x00; x00] r.2) = 2%nat) as Hlen.
  { unfold overwrite. rewrite length_take, length_app, length_drop.
    cbn [length]. lia. }
  destruct (overwrite [x00; x00] r.2) as [|b0 [|b1 [|??]]]; try done.
  destruct (negb _) eqn:Htest; [done|]. exfalso. apply Hbytes.
  apply negb_false_iff, Z.eqb_eq in Htest.
  apply handshake_test_bytes in Htest as [-> ->]. reflexivity.
Qed.

(** C10: with a NULL device, smi2021_load_firmware returns 0 and does
    nothing: no control transfer is issued and no error is reported. *)
Theorem load_firmware_null_device env (fw : option fw_ptr) (s : kstate) :
  smi2021_load_firmware env None fw s = (Normal 0, s).
Proof. reflexivity. Qed.

(** C2: an image whose length is not a multiple of 62 is rejected with
    -ENODEV before any transfer: the state, and so the log of control
    transfers, is unchanged. *)
Theorem load_firmware_wrong_size env udev (p : fw_ptr) (s : kstate) :
  kzalloc_ok env = true →
  fw_size (fw_obj p) mod 62 ≠ 0 →
  smi2021_load_firmware env (Some udev) (Some p) s = (Normal (- ENODEV), s)
  ∧ usb_transfers (klog (snd (smi2021_load_firmware env (Some udev) (Some p) s)))
    = usb_transfers (klog s).
Proof.
  intros Hk Hmod.
  assert (smi2021_load_firmware env (Some udev) (Some p) s
          = (Normal (- ENODEV), s)) as ->; [|done].
  unfold smi2021_load_firmware.
  rewrite run_bind, run_kzalloc by done.
  apply Z.eqb_neq in Hmod. unfold FIRMWARE_CHUNK_SIZE. by rewrite Hmod.
Qed.

Lemma load_firmware_wrong_size_witness :
  smi2021_load_firmware (mk_env false no_files) (Some good_device)
    (Some (blob_of_size 100)) (initial_state 0)
  = (Normal (- ENODEV), initial_state 0)
  ∧ usb_transfers (klog (snd (smi2021_load_firmware (mk_env false no_files)
      (Some good_device) (Some (blob_of_size 100)) (initial_state 0))))
    = usb_transfers (klog (initial_state 0)).
Proof.
  apply (load_firmware_wrong_size (mk_env false no_files) good_device
           (blob_of_size 100) (initial_state 0)).
  - reflexivity.
  - vm_compute. discriminate.
Defined.

(** C3: with an image of 62 * N bytes (N > 0), the handshake answered by
    [01 07] and every write accepted, the upload issues the handshake read,
    then the N chunk writes in ascending order, then one completion write,
    and returns 0.  Chunk i is 64 bytes, the header [05 ff] and the i-th
    slice of 62 bytes, sent with request 0x01, value 0x0005, index 0x0000; the
    completion write carries [07 00], 0x0007 in little-endian order, with
    request 0x01, value 0x0007. *)
Theorem load_firmware_complete env udev (p : fw_ptr) (N : nat) (s : kstate)
    (rc0 : Z) :
  let fw := fw_obj p in
  kzalloc_ok env = true →
  (0 < N)%nat →
  length (fw_data fw) = (62 * N)%nat →
  fw_size fw ≤ INT_MAX →
  usb_respond udev (klog s) handshake_read = (rc0, [x01; x07]) →
  0 ≤ rc0 →
  (∀ j, (j < N)%nat →
     0 ≤ fst (usb_respond udev (klog s ++ upload_log fw j) (chunk_xfer fw j))) →
  0 ≤ fst (usb_respond udev (klog s ++ upload_log fw N) ack_xfer) →
  smi2021_load_firmware env (Some udev) (Some p) s
  = (Normal 0,
     with_klog s (klog s ++ [EvUsb handshake_read]
                  ++ (EvUsb ∘ chunk_xfer fw <$> seq 0 N)
                  ++ [EvUsb ack_xfer]))
  ∧ (∀ i, (i < N)%nat →
       payload (chunk_xfer fw i)
       = [x05; xff] ++ take 62 (drop (62 * i) (fw_data fw))
       ∧ length (payload (chunk_xfer fw i)) = 64%nat
       ∧ pipe_in (chunk_xfer fw i) = false
       ∧ bRequest (chunk_xfer fw i) = 0x01
       ∧ wValue (chunk_xfer fw i) = 0x0005
       ∧ wIndex (chunk_xfer fw i) = 0x0000)
  ∧ payload ack_xfer = [x07; x00]
  ∧ pipe_in ack_xfer = false
  ∧ bRequest ack_xfer = 0x01
  ∧ wValue ack_xfer = 0x0007.
Proof.
  intros fw Hk HN Hsize Hint Hhs Hrc0 Hchunks Hack. subst fw.
  set (fw := fw_obj p) in *.
  split; [|split; [|done]].
  - rewrite load_firmware_handshake
      by (done || by apply (fw_size_mod fw N)).
    cbn zeta. rewrite Hhs. cbn [fst snd].
    replace (rc0 <? 0) with false by (symmetry; apply Z.ltb_ge; lia).
    replace (overwrite _ [x01; x07]) with [x01; x07]
      by (by destruct (big_endian env)).
    rewrite handshake_reply_accepted. cbn [Z.eqb Pos.eqb negb].
    destruct initial_chunk as [Hlen Hhdr].
    rewrite run_bind.
    rewrite (upload_chunks_complete udev fw N Hsize Hint (klog s) N 0%nat);
      try done.
    + rewrite run_bind, completion_payload, run_usb_control_msg.
      cbn [fst snd klog with_klog]. fold ack_xfer.
      replace (_ <? 0) with false by (symmetry; apply Z.ltb_ge, Hack).
      rewrite run_ret. unfold upload_log. simpl.
      by rewrite <- !app_assoc.
    + unfold upload_fuel. fold fw. rewrite (fw_size_div fw N Hsize). lia.
    + intros j Hj. apply Hchunks. lia.
  - intros i Hi. repeat split.
    apply (chunk_payload_length fw N Hsize i Hi).
Qed.

Lemma load_firmware_complete_witness :
  smi2021_load_firmware (mk_env false no_files) (Some good_device)
    (Some (blob_of_size 124)) (initial_state 0)
  = (Normal 0,
     with_klog (initial_state 0)
       ([EvUsb handshake_read]
        ++ (EvUsb ∘ chunk_xfer (fw_obj (blob_of_size 124)) <$> seq 0 2)
        ++ [EvUsb ack_xfer])).
Proof.
  apply (load_firmware_complete (mk_env false no_files) good_device
           (blob_of_size 124) 2 (initial_state 0) 2).
  - reflexivity.
  - lia.
  - reflexivity.
  - vm_compute. discriminate.
  - reflexivity.
  - lia.
  - intros j Hj. vm_compute. discriminate.
  - vm_compute. discriminate.
Defined.

(** C4: when chunk i is the first chunk write that fails, the upload returns
    the error of that transfer at once.  The log ends with the failing write
    of chunk i: chunks 0 .. i were each sent once, chunk i is not sent again,
    and no later chunk and no completion write follows. *)
Theorem load_firmware_chunk_failure env udev (p : fw_ptr) (N i : nat)
    (s : kstate) (rc0 rc : Z) :
  let fw := fw_obj p in
  kzalloc_ok env = true →
  length (fw_data fw) = (62 * N)%nat →
  fw_size fw ≤ INT_MAX →
  usb_respond udev (klog s) handshake_read = (rc0, [x01; x07]) →
  0 ≤ rc0 →
  (i < N)%nat →
  (∀ j, (j < i)%nat →
     0 ≤ fst (usb_respond udev (klog s ++ upload_log fw j) (chunk_xfer fw j))) →
  fst (usb_respond udev (klog s ++ upload_log fw i) (chunk_xfer fw i)) = rc →
  rc < 0 →
  smi2021_load_firmware env (Some udev) (Some p) s
  = (Normal rc,
     with_klog s (klog s ++ [EvUsb handshake_read]
                  ++ (EvUsb ∘ chunk_xfer fw <$> seq 0 i)
                  ++ [EvUsb (chunk_xfer fw i)])).
Proof.
  intros fw Hk Hsize Hint Hhs Hrc0 Hi Hchunks Hrc Hneg. subst fw.
  set (fw := fw_obj p) in *.
  rewrite load_firmware_handshake
    by (done || by apply (fw_size_mod fw N)).
  cbn zeta. rewrite Hhs. cbn [fst snd].
  replace (rc0 <? 0) with false by (symmetry; apply Z.ltb_ge; lia).
  replace (overwrite _ [x01; x07]) with [x01; x07]
    by (by destruct (big_endian env)).
  rewrite handshake_reply_accepted. cbn [Z.eqb Pos.eqb negb].
  destruct initial_chunk as [Hlen Hhdr].
  rewrite run_bind.
  rewrite (upload_chunks_abort udev fw N Hsize Hint (klog s) rc i 0%nat);
    try done.
  - rewrite run_ret, upload_log_S. unfold upload_log. by simpl.
  - unfold upload_fuel. fold fw. rewrite (fw_size_div fw N Hsize). lia.
  - intros j Hj. apply Hchunks. lia.
Qed.

Lemma load_firmware_chunk_failure_witness :
  smi2021_load_firmware (mk_env false no_files)
    (Some (device_failing_after 1)) (Some (blob_of_size 186)) (initial_state 0)
  = (Normal (-32),
     with_klog (initial_state 0)
       ([EvUsb handshake_read]
        ++ (EvUsb ∘ chunk_xfer (fw_obj (blob_of_size 186)) <$> seq 0 1)
        ++ [EvUsb (chunk_xfer (fw_obj (blob_of_size 186)) 1)])).
Proof.
  apply (load_firmware_chunk_failure (mk_env false no_files)
           (device_failing_after 1) (blob_of_size 186) 3 1 (initial_state 0)
           2 (-32)).
  - reflexivity.
  - reflexivity.
  - vm_compute. discriminate.
  - reflexivity.
  - lia.
  - lia.
  - intros j Hj. assert (j = 0%nat) as -> by lia. vm_compute. discriminate.
  - reflexivity.
  - lia.
Defined.

(** C9: an upload changes nothing on the host but the log of kernel calls:
    the descriptor table, the table of loaded images and the count are the
    same after the call as before it, whatever the device, the image and the
    result. *)
Theorem load_firmware_host_state env (udev : option usb_device)
    (fw : option fw_ptr) (s : kstate) :
  let s' := snd (smi2021_load_firmware env udev fw s) in
  available_fw s' = available_fw s
  ∧ firmware s' = firmware s
  ∧ firmwares s' = firmwares s
  ∧ host_state s' = host_state s.
Proof.
  pose proof (frame_load_firmware env udev fw s) as H.
  cbn zeta. repeat split; try done; unfold host_state in H; congruence.
Qed.

(** C1: a handshake that is answered with two bytes other than [01 07] makes
    smi2021_load_firmware stop after the one read, but the value returned is
    the byte count of usb_control_msg, 2, not an error, and
    smi2021_bootloader_probe then returns 0. *)
Theorem handshake_mismatch_returns_byte_count :
  let env := mk_env false (loader_of [("smi2021_3e.bin"%string, blob_3e)]) in
  let dev := device_replying 2 [x00; x00] in
  let p := {| fw_addr := 0; fw_obj := blob_3e |} in
  smi2021_load_firmware env (Some dev) (Some p) (initial_state 0)
  = (Normal 2, with_klog (initial_state 0) [EvUsb handshake_read])
  ∧ fst (smi2021_bootloader_probe env dev (initial_state 0)) = Normal 0
  ∧ usb_transfers (klog (snd (smi2021_bootloader_probe env dev
                                 (initial_state 0))))
    = [handshake_read].
Proof. by vm_compute. Qed.

(** ** The catalog: primitives *)

Lemma kstate_eq (s s' : kstate) :
  available_fw s' = available_fw s → firmware s' = firmware s →
  firmwares s' = firmwares s → firmware_version s' = firmware_version s →
  fw_live s' = fw_live s → fw_next s' = fw_next s → klog s' = klog s →
  s' = s.
Proof. destruct s, s'. simpl. by intros -> -> -> -> -> -> ->. Qed.

Lemma run_read_available_fw i d s :
  available_fw s !! i = Some d → read_available_fw i s = (Normal d, s).
Proof.
  intros H. unfold read_available_fw. rewrite run_bind, run_gets. by rewrite H.
Qed.

Lemma run_write_found i f d s :
  available_fw s !! i = Some d →
  write_found i f s
  = (Normal tt, upd_available_fw (<[i := set_found f d]> (available_fw s)) s).
Proof.
  intros H. unfold write_found. rewrite run_bind, run_gets. by rewrite H.
Qed.

Lemma index_ok_nat {A} (l : list A) (i : nat) :
  (i < length l)%nat → index_ok l (Z.of_nat i) = true.
Proof.
  intros H. unfold index_ok. apply andb_true_intro.
  split; [apply Z.leb_le | apply Z.ltb_lt]; lia.
Qed.

Lemma run_read_firmware (i : nat) p s :
  firmware s !! i = Some p → read_firmware (Z.of_nat i) s = (Normal p, s).
Proof.
  intros H. unfold read_firmware. rewrite run_bind, run_gets.
  rewrite index_ok_nat by (by eapply lookup_lt_Some).
  rewrite Nat2Z.id. by rewrite (list_lookup_total_correct _ _ _ H).
Qed.

Lemma run_write_firmware (i : nat) p s :
  (i < length (firmware s))%nat →
  write_firmware (Z.of_nat i) p s
  = (Normal tt, upd_firmware (<[i := p]> (firmware s)) s).
Proof.
  intros H. unfold write_firmware. rewrite run_bind, run_gets.
  rewrite index_ok_nat by done. by rewrite Nat2Z.id.
Qed.

Lemma run_request_firmware env (k : nat) nm s :
  (k < length (firmware s))%nat →
  request_firmware env (Z.of_nat k) nm s =
  match fw_loader env nm with
  | FwFound fw =>
      (Normal 0,
       {| available_fw := available_fw s;
          firmware := <[k := Some {| fw_addr := fw_next s; fw_obj := fw |}]>
                        (firmware s);
          firmwares := firmwares s;
          firmware_version := firmware_version s;
          fw_live := {[fw_next s]} ∪ fw_live s;
          fw_next := S (fw_next s);
          klog := klog s ++ [EvRequestFirmware nm] |})
  | FwFail e =>
      (Normal (Z.neg e),
       {| available_fw := available_fw s;
          firmware := <[k := None]> (firmware s);
          firmwares := firmwares s;
          firmware_version := firmware_version s;
          fw_live := fw_live s;
          fw_next := fw_next s;
          klog := klog s ++ [EvRequestFirmware nm] |})
  end.
Proof.
  intros H. unfold request_firmware. rewrite run_bind. cbn [log_event modify].
  destruct (fw_loader env nm) as [fw|e].
  - rewrite run_bind, run_gets, run_bind, run_write_firmware by done.
    reflexivity.
  - rewrite run_bind, run_write_firmware by done. reflexivity.
Qed.

Lemma insert_middle {A} (pre : list A) (x y : A) (rest : list A) :
  <[length pre := x]> (pre ++ y :: rest) = (pre ++ [x]) ++ rest.
Proof.
  rewrite <- (Nat.add_0_r (length pre)), insert_app_r. simpl.
  by rewrite <- app_assoc.
Qed.

Lemma lookup_middle {A} (pre : list A) (y : A) (rest : list A) :
  (pre ++ y :: rest) !! length pre = Some y.
Proof. apply list_lookup_middle. reflexivity. Qed.

Lemma length_snoc {A} (pre : list A) (x : A) :
  length (pre ++ [x]) = S (length pre).
Proof. rewrite length_app. simpl. lia. Qed.

(** One turn of the probe loop. *)
Lemma run_probe_one env i d (k : nat) s :
  available_fw s !! i = Some d →
  firmwares s = Z.of_nat k - 1 →
  (k < length (firmware s))%nat →
  probe_one env i s =
  match fw_loader env (name d) with
  | FwFound fw =>
      (Normal None,
       {| available_fw := <[i := set_found (Z.of_nat k) d]> (available_fw s);
          firmware := <[k := Some {| fw_addr := fw_next s; fw_obj := fw |}]>
                        (firmware s);
          firmwares := Z.of_nat k;
          firmware_version := firmware_version s;
          fw_live := {[fw_next s]} ∪ fw_live s;
          fw_next := S (fw_next s);
          klog := klog s ++ [EvRequestFirmware (name d)] |})
  | FwFail e =>
      match is_fatal (FwFail e) with
      | None =>
          (Normal None,
           {| available_fw := <[i := set_found (-1) d]> (available_fw s);
              firmware := <[k := None]> (firmware s);
              firmwares := firmwares s;
              firmware_version := firmware_version s;
              fw_live := fw_live s;
              fw_next := fw_next s;
              klog := klog s ++ [EvRequestFirmware (name d)] |})
      | Some rc =>
          (Normal (Some rc),
           {| available_fw := available_fw s;
              firmware := <[k := None]> (firmware s);
              firmwares := firmwares s;
              firmware_version := firmware_version s;
              fw_live := fw_live s;
              fw_next := fw_next s;
              klog := klog s ++ [EvRequestFirmware (name d)] |})
      end
  end.
Proof.
  intros Hd Hk Hlen. unfold probe_one.
  rewrite run_bind, (run_read_available_fw _ d) by done.
  rewrite run_bind, run_gets.
  replace (firmwares s + 1) with (Z.of_nat k) by lia.
  rewrite run_bind, run_request_firmware by done.
  destruct (fw_loader env (name d)) as [fw|e].
  - change (0 =? 0) with true. cbv iota.
    rewrite run_bind. cbn [set_firmwares modify].
    rewrite run_bind, (run_write_found _ _ d) by done. reflexivity.
  - change (Z.neg e =? 0) with false. cbv iota. cbn [is_fatal].
    destruct (Z.neg e =? - ENOENT); [|reflexivity].
    rewrite run_bind, (run_write_found _ _ d) by done. reflexivity.
Qed.

(** ** The probe loop *)

Lemma for_each_S n i body s :
  for_each (S n) i body s =
  match body i s with
  | (Normal None, s') => for_each n (S i) body s'
  | (Normal (Some rc), s') => (Normal (Some rc), s')
  | (Fault f, s') => (Fault f, s')
  end.
Proof.
  simpl. rewrite run_bind. by destruct (body i s) as [[[rc|]|f] s'].
Qed.

Lemma take_take_le {A} (l : list A) (n m : nat) :
  (n ≤ m)%nat → take n (take m l) = take n l.
Proof. intros H. by rewrite take_take, Nat.min_l. Qed.

Lemma found_blobs_cons_some env d ds b :
  loaded env d = Some b → found_blobs env (d :: ds) = b :: found_blobs env ds.
Proof. intros H. unfold found_blobs. simpl. by rewrite H. Qed.

Lemma found_blobs_cons_none env d ds :
  loaded env d = None → found_blobs env (d :: ds) = found_blobs env ds.
Proof. intros H. unfold found_blobs. simpl. by rewrite H. Qed.

(** The loop from descriptor [length pre] on, when [k] variants were found
    before: it stops at the first fatal reply, and up to there it hands out
    the slots in registration order. *)
Lemma probe_loop_run env :
  ∀ (rest pre : list smi2021_firmware) (k : nat) (s : kstate),
    available_fw s = pre ++ rest →
    firmwares s = Z.of_nat k - 1 →
    (k ≤ length pre)%nat →
    (length pre + length rest ≤ length (firmware s))%nat →
    ∃ s',
      for_each (length rest) (length pre) (probe_one env) s
      = (Normal (fatal_code env rest), s')
      ∧ available_fw s'
        = pre ++ assign_slots env k (probed env rest)
              ++ drop (length (probed env rest)) rest
      ∧ firmwares s'
        = Z.of_nat (k + length (found_blobs env (probed env rest))) - 1
      ∧ length (firmware s') = length (firmware s)
      ∧ take k (firmware s') = take k (firmware s)
      ∧ (∀ j b, found_blobs env (probed env rest) !! j = Some b →
           firmware s' !! (k + j)%nat
           = Some (Some {| fw_addr := fw_next s + j; fw_obj := b |}))
      ∧ fw_live s'
        = list_to_set (seq (fw_next s)
                         (length (found_blobs env (probed env rest))))
          ∪ fw_live s
      ∧ fw_next s'
        = (fw_next s + length (found_blobs env (probed env rest)))%nat
      ∧ klog s' = klog s ++ (EvRequestFirmware ∘ name <$> requested env rest)
      ∧ firmware_version s' = firmware_version s.
Proof.
  induction rest as [|d rest IH]; intros pre k s Hav Hcnt Hk Hlen.
  - exists s. simpl. rewrite app_nil_r in Hav.
    split; [done|]. split; [by rewrite app_nil_r|].
    split; [by rewrite Nat.add_0_r|]. split; [done|]. split; [done|].
    split; [by intros j b Hb; rewrite lookup_nil in Hb|].
    split; [by rewrite (left_id_L ∅ (∪))|]. split; [lia|]. split; [|done].
    by rewrite app_nil_r.
  - cbn [length]. rewrite for_each_S.
    rewrite (run_probe_one env (length pre) d k)
      by (done || (rewrite Hav; apply lookup_middle) || (simpl in Hlen; lia)).
    simpl in Hlen. cbn [probed requested fatal_code].
    destruct (fw_loader env (name d)) as [fw|e] eqn:Hload.
    + assert (loaded env d = Some fw) as Hl by (unfold loaded; by rewrite Hload).
      cbn [is_fatal].
      set (s2 := {| available_fw := _ |}).
      destruct (IH (pre ++ [set_found (Z.of_nat k) d]) (S k) s2)
        as (s' & Hrun & Hav' & Hcnt' & Hlen' & Htake & Hslots & Hlive & Hnext
            & Hlog & Hver).
      { subst s2. cbn [available_fw]. rewrite Hav. apply insert_middle. }
      { subst s2. cbn [firmwares]. lia. }
      { rewrite length_snoc. lia. }
      { subst s2. cbn [firmware]. rewrite length_insert, length_snoc. lia. }
      rewrite length_snoc in Hrun. exists s'.
      subst s2. cbn [firmware fw_next fw_live klog firmware_version] in *.
      rewrite length_insert in Hlen'.
      cbn [assign_slots length drop]. rewrite Hl.
      rewrite (found_blobs_cons_some env d _ fw Hl). cbn [length].
      split; [done|]. split; [by rewrite Hav', <- app_assoc|].
      split; [lia|]. split; [done|]. split.
      { rewrite <- (take_take_le (firmware s') k (S k)) by lia.
        rewrite Htake, take_take_le, take_insert_ge by lia. done. }
      split.
      { intros [|j] b Hb.
        - simpl in Hb. injection Hb as <-.
          rewrite !Nat.add_0_r.
          rewrite <- (lookup_take_lt (firmware s') (S k)) by lia.
          rewrite Htake, lookup_take_lt, list_lookup_insert_eq by lia. done.
        - simpl in Hb. replace (k + S j)%nat with (S k + j)%nat by lia.
          rewrite (Hslots j b Hb). do 3 f_equal. lia. }
      split.
      { rewrite Hlive. cbn [seq list_to_set foldr].
        by rewrite (assoc_L (∪)), (comm_L (∪) _ {[fw_next s]}). }
      split; [lia|]. split; [|done].
      rewrite Hlog, <- app_assoc. done.
    + assert (loaded env d = None) as Hl by (unfold loaded; by rewrite Hload).
      destruct (is_fatal (FwFail e)) as [rc|] eqn:Hfatal.
      * eexists. split; [reflexivity|].
        cbn [available_fw firmware firmwares fw_live fw_next klog
             firmware_version assign_slots found_blobs omap length drop
             seq list_to_set].
        rewrite length_insert, take_insert_ge by lia.
        rewrite !Nat.add_0_r.
        change (list_to_set (seq (fw_next s) (length (found_blobs env []))))
          with (∅ : gset nat).
        split; [by rewrite Hav|]. split; [done|]. split; [done|].
        split; [done|].
        split; [by intros j b Hb; simpl in Hb|].
        split; [by rewrite (left_id_L ∅ (∪))|]. done.
      * set (s2 := {| available_fw := _ |}).
        destruct (IH (pre ++ [set_found (-1) d]) k s2)
          as (s' & Hrun & Hav' & Hcnt' & Hlen' & Htake & Hslots & Hlive & Hnext
              & Hlog & Hver).
        { subst s2. cbn [available_fw]. rewrite Hav. apply insert_middle. }
        { subst s2. cbn [firmwares]. lia. }
        { rewrite length_snoc. lia. }
        { subst s2. cbn [firmware]. rewrite length_insert, length_snoc. lia. }
        rewrite length_snoc in Hrun. exists s'.
        subst s2. cbn [firmware fw_next fw_live klog firmware_version] in *.
        rewrite length_insert in Hlen'.
        cbn [assign_slots length drop]. rewrite Hl.
        rewrite (found_blobs_cons_none env d _ Hl).
        split; [done|]. split; [by rewrite Hav', <- app_assoc|].
        split; [lia|]. split; [done|]. split.
        { rewrite Htake, take_insert_ge by lia. done. }
        split; [done|]. split; [done|]. split; [done|]. split; [|done].
        rewrite Hlog, <- app_assoc. done.
Qed.

(** ** The state the probe leaves behind *)

Lemma assign_slots_lookup env :
  ∀ (ds : list smi2021_firmware) (k i : nat),
    assign_slots env k ds !! i
    = (λ d, set_found
              (match loaded env d with
               | Some _ =>
                   Z.of_nat (k + length (found_blobs env (take i ds)))
               | None => -1
               end) d) <$> ds !! i.
Proof.
  induction ds as [|d ds IH]; intros k i; [done|].
  cbn [assign_slots]. destruct i as [|i].
  - change (take 0 (d :: ds)) with (@nil smi2021_firmware).
    change (found_blobs env []) with (@nil firmware_blob).
    destruct (loaded env d) eqn:Hl; simpl; by rewrite Hl, ?Nat.add_0_r.
  - change (take (S i) (d :: ds)) with (d :: take i ds).
    change ((d :: ds) !! S i) with (ds !! i).
    destruct (loaded env d) as [b|] eqn:Hl.
    + rewrite (found_blobs_cons_some env d _ b Hl).
      change ((set_found (Z.of_nat k) d :: assign_slots env (S k) ds) !! S i)
        with (assign_slots env (S k) ds !! i).
      rewrite IH. destruct (ds !! i) as [d'|]; [|done]. simpl.
      destruct (loaded env d'); [|done]. do 3 f_equal. lia.
    + rewrite (found_blobs_cons_none env d _ Hl).
      change ((set_found (-1) d :: assign_slots env k ds) !! S i)
        with (assign_slots env k ds !! i).
      by rewrite IH.
Qed.



Lemma slots_assign env :
  ∀ ds k, slots k (assign_slots env k ds)
            (k + length (found_blobs env ds)).
Proof.
  induction ds as [|d ds IH]; intros k.
  - simpl. rewrite Nat.add_0_r. constructor.
  - cbn [assign_slots]. destruct (loaded env d) as [b|] eqn:Hl.
    + rewrite (found_blobs_cons_some env d _ b Hl). simpl.
      apply slots_present; [done|].
      replace (k + S (length (found_blobs env ds)))%nat
        with (S k + length (found_blobs env ds))%nat by lia.
      apply IH.
    + rewrite (found_blobs_cons_none env d _ Hl).
      apply slots_absent; [done|]. apply IH.
Qed.

Lemma probed_no_fatal env ds :
  fatal_code env ds = None → probed env ds = ds ∧ requested env ds = ds.
Proof.
  induction ds as [|d ds IH]; [done|]. simpl.
  destruct (is_fatal _); [done|]. intros H.
  destruct (IH H) as [-> ->]. done.
Qed.

Lemma probed_app env pre l :
  Forall (harmless env) pre →
  probed env (pre ++ l) = pre ++ probed env l
  ∧ requested env (pre ++ l) = pre ++ requested env l
  ∧ fatal_code env (pre ++ l) = fatal_code env l.
Proof.
  induction 1 as [|d pre Hd Hpre IH]; [done|]. simpl.
  unfold harmless in Hd. rewrite Hd.
  destruct IH as (-> & -> & ->). done.
Qed.

Lemma run_probe_all env s :
  firmwares s = -1 →
  length (firmware s) = length (available_fw s) →
  ∃ s',
    probe_all env s = (Normal (fatal_code env (available_fw s)), s')
    ∧ available_fw s'
      = assign_slots env 0 (probed env (available_fw s))
          ++ drop (length (probed env (available_fw s))) (available_fw s)
    ∧ firmwares s'
      = Z.of_nat (length (found_blobs env (probed env (available_fw s)))) - 1
    ∧ length (firmware s') = length (firmware s)
    ∧ (∀ j b, found_blobs env (probed env (available_fw s)) !! j = Some b →
         firmware s' !! j
         = Some (Some {| fw_addr := fw_next s + j; fw_obj := b |}))
    ∧ fw_live s'
      = list_to_set (seq (fw_next s)
          (length (found_blobs env (probed env (available_fw s)))))
        ∪ fw_live s
    ∧ klog s'
      = klog s ++ (EvRequestFirmware ∘ name <$> requested env (available_fw s))
    ∧ firmware_version s' = firmware_version s.
Proof.
  intros Hcnt Hlen.
  destruct (probe_loop_run env (available_fw s) [] 0%nat s)
    as (s' & Hrun & Hav & Hc & Hl & _ & Hslots & Hlive & _ & Hlog & Hver);
    try done; [simpl; lia|].
  exists s'. unfold probe_all, ARRAY_SIZE_available_fw.
  rewrite run_bind, run_gets. simpl in *. done.
Qed.

Lemma fresh_ptrs_lookup a blobs j :
  fresh_ptrs a blobs !! j
  = (λ b, {| fw_addr := a + j; fw_obj := b |}) <$> blobs !! j.
Proof. unfold fresh_ptrs. by rewrite list_lookup_imap. Qed.

Lemma fresh_ptrs_length a blobs : length (fresh_ptrs a blobs) = length blobs.
Proof. apply length_imap. Qed.

Lemma fresh_ptrs_addr a blobs :
  fw_addr <$> fresh_ptrs a blobs = seq a (length blobs).
Proof.
  apply list_eq. intros j.
  rewrite list_lookup_fmap, fresh_ptrs_lookup.
  destruct (blobs !! j) as [b|] eqn:Hb; simpl.
  - symmetry. apply lookup_seq. split; [done|]. by eapply lookup_lt_Some.
  - symmetry. apply lookup_ge_None. rewrite length_seq.
    by apply lookup_ge_None.
Qed.

Lemma fresh_ptrs_obj a blobs : fw_obj <$> fresh_ptrs a blobs = blobs.
Proof.
  apply list_eq. intros j. rewrite list_lookup_fmap, fresh_ptrs_lookup.
  by destruct (blobs !! j).
Qed.

(** A probe without a fatal reply leaves a catalog: the images found, in the
    order of their descriptors. *)
Lemma probe_all_catalog env s :
  firmwares s = -1 →
  length (firmware s) = length (available_fw s) →
  fatal_code env (available_fw s) = None →
  ∃ s',
    probe_all env s = (Normal None, s')
    ∧ catalog s' (fresh_ptrs (fw_next s) (found_blobs env (available_fw s)))
    ∧ available_fw s' = assign_slots env 0 (available_fw s)
    ∧ klog s'
      = klog s ++ (EvRequestFirmware ∘ name <$> available_fw s)
    ∧ firmware_version s' = firmware_version s.
Proof.
  intros Hcnt Hlen Hok.
  destruct (run_probe_all env s Hcnt Hlen)
    as (s' & Hrun & Hav & Hc & Hl & Hslots & Hlive & Hlog & Hver).
  destruct (probed_no_fatal env _ Hok) as [Hp Hr].
  rewrite Hok, Hp, ?Hr in *. rewrite drop_all, app_nil_r in Hav.
  exists s'. split; [done|]. split; [|done].
  unfold catalog. rewrite fresh_ptrs_length, fresh_ptrs_addr.
  split; [done|]. split.
  { rewrite Hav. apply (slots_assign env (available_fw s) 0). }
  split.
  { intros j p. rewrite fresh_ptrs_lookup.
    destruct (found_blobs env (available_fw s) !! j) as [b|] eqn:Hb; [|done].
    simpl. intros [= <-]. by apply Hslots. }
  split; [apply NoDup_seq|].
  intros p Hp'. rewrite Hlive. apply elem_of_union_l, elem_of_list_to_set.
  rewrite <- fresh_ptrs_addr. by apply list_elem_of_fmap_2.
Qed.



Lemma requested_head env d rest :
  ∃ l, requested env (d :: rest) = d :: l.
Proof. simpl. destruct (is_fatal _); eauto. Qed.

Lemma assign_slots_length env ds : ∀ k, length (assign_slots env k ds) = length ds.
Proof.
  induction ds as [|d ds IH]; intros k; [done|]. simpl.
  destruct (loaded env d); simpl; by rewrite IH.
Qed.

(** C7: in a probe, a request that fails with -ENOENT marks its descriptor
    absent (-1) and the next descriptor is requested; a request that fails
    with another error ends the probe at once: the probe returns that error,
    no later descriptor is requested and nothing is sent to the device. *)
Theorem probe_not_found_continues_error_aborts env udev (s : kstate)
    (pre rest : list smi2021_firmware) (d : smi2021_firmware) (e : positive) :
  firmwares s = -1 →
  length (firmware s) = length (available_fw s) →
  available_fw s = pre ++ d :: rest →
  Forall (harmless env) pre →
  fw_loader env (name d) = FwFail e →
  ∃ r s1,
    probe_all env s = (Normal r, s1)
    ∧ (Z.neg e = - ENOENT →
         r = fatal_code env rest
         ∧ found <$> available_fw s1 !! length pre = Some (-1)
         ∧ ∃ l, klog s1
                = klog s
                  ++ (EvRequestFirmware ∘ name <$> pre ++ d :: take 1 rest)
                  ++ l)
    ∧ (Z.neg e ≠ - ENOENT →
         r = Some (Z.neg e)
         ∧ smi2021_bootloader_probe env udev s = (Normal (Z.neg e), s1)
         ∧ klog s1 = klog s ++ (EvRequestFirmware ∘ name <$> pre ++ [d])).
Proof.
  intros Hcnt Hlen Hav Hpre Hd.
  destruct (run_probe_all env s Hcnt Hlen)
    as (s1 & Hrun & Hav1 & Hc & Hl & Hslots & Hlive & Hlog & Hver).
  destruct (probed_app env pre (d :: rest) Hpre) as (Hp & Hr & Hf).
  rewrite Hav, Hp, Hr, Hf in *. clear Hp Hr Hf.
  cbn [probed requested fatal_code] in *. rewrite Hd in *.
  cbn [is_fatal] in *.
  exists (if Z.neg e =? - ENOENT then fatal_code env rest
          else Some (Z.neg e)), s1.
  split; [by destruct (Z.neg e =? - ENOENT)|]. split.
  - intros He. apply Z.eqb_eq in He. rewrite He in *.
    split; [done|]. split.
    + rewrite Hav1, lookup_app_l
        by (rewrite assign_slots_length, length_app; simpl; lia).
      rewrite assign_slots_lookup, list_lookup_middle by done. simpl.
      unfold loaded. by rewrite Hd.
    + rewrite Hlog. destruct rest as [|d2 rest].
      * exists []. by rewrite app_nil_r.
      * destruct (requested_head env d2 rest) as [l ->].
        exists (EvRequestFirmware ∘ name <$> l).
        f_equal. cbn [take]. by rewrite <- fmap_app, <- app_assoc.
  - intros He. apply Z.eqb_neq in He. rewrite He in *.
    split; [done|]. split; [|done].
    unfold smi2021_bootloader_probe. by rewrite run_bind, Hrun.
Qed.

Lemma probe_not_found_continues_error_aborts_witness :
  let env := mk_env false unreadable_3e in
  let s := initial_state 0 in
  ∃ r s1,
    probe_all env s = (Normal r, s1)
    ∧ (Z.neg 5 = - ENOENT →
         r = fatal_code env [Smi2021Firmware 0x3f "smi2021_3f.bin" 0]
         ∧ found <$> available_fw s1
                       !! length [Smi2021Firmware 0x3c "smi2021_3c.bin" 0]
           = Some (-1)
         ∧ ∃ l, klog s1
                = klog s
                  ++ (EvRequestFirmware ∘ name <$>
                        [Smi2021Firmware 0x3c "smi2021_3c.bin" 0]
                        ++ Smi2021Firmware 0x3e "smi2021_3e.bin" 0
                        :: take 1 [Smi2021Firmware 0x3f "smi2021_3f.bin" 0])
                  ++ l)
    ∧ (Z.neg 5 ≠ - ENOENT →
         r = Some (Z.neg 5)
         ∧ smi2021_bootloader_probe env good_device s = (Normal (Z.neg 5), s1)
         ∧ klog s1
           = klog s
             ++ (EvRequestFirmware ∘ name <$>
                   [Smi2021Firmware 0x3c "smi2021_3c.bin" 0]
                   ++ [Smi2021Firmware 0x3e "smi2021_3e.bin" 0])).
Proof.
  intros env s.
  apply (probe_not_found_continues_error_aborts env good_device s
           [Smi2021Firmware 0x3c "smi2021_3c.bin" 0]
           [Smi2021Firmware 0x3f "smi2021_3f.bin" 0]
           (Smi2021Firmware 0x3e "smi2021_3e.bin" 0) 5).
  - reflexivity.
  - reflexivity.
  - reflexivity.
  - repeat constructor.
  - reflexivity.
Defined.

(** ** Teardown: smi2021_bootloader_disconnect *)

Lemma run_release_firmware p s :
  fw_addr p ∈ fw_live s →
  release_firmware (Some p) s
  = (Normal tt,
     upd_fw_objects (fw_live s ∖ {[fw_addr p]}) (fw_next s)
       (with_klog s (klog s ++ [EvReleaseFirmware (fw_addr p)]))).
Proof.
  intros H. unfold release_firmware. rewrite run_bind, run_gets.
  by rewrite decide_True.
Qed.

Lemma set_found_absent d : found d = -1 → set_found (-1) d = d.
Proof. destruct d. simpl. by intros ->. Qed.

Lemma slots_le k ds n : slots k ds n → (k ≤ n)%nat.
Proof. induction 1; lia. Qed.

(** One turn of the teardown loop on a descriptor that holds slot [k]. *)
Lemma run_disconnect_one_present i d (k : nat) p s :
  available_fw s !! i = Some d →
  found d = Z.of_nat k →
  firmware s !! k = Some (Some p) →
  fw_addr p ∈ fw_live s →
  disconnect_one i s
  = (Normal None,
     {| available_fw := <[i := set_found (-1) d]> (available_fw s);
        firmware := <[k := None]> (firmware s);
        firmwares := firmwares s;
        firmware_version := firmware_version s;
        fw_live := fw_live s ∖ {[fw_addr p]};
        fw_next := fw_next s;
        klog := klog s ++ [EvReleaseFirmware (fw_addr p)] |}).
Proof.
  intros Hd Hf Hp Hlive. unfold disconnect_one.
  rewrite run_bind, (run_read_available_fw _ d) by done.
  rewrite Hf. replace (0 <=? Z.of_nat k) with true
    by (symmetry; apply Z.leb_le; lia).
  rewrite run_bind, (run_read_firmware _ (Some p)) by done.
  rewrite run_bind, run_release_firmware by done.
  rewrite run_bind, run_write_firmware
    by (simpl; by eapply lookup_lt_Some).
  rewrite run_bind, (run_write_found _ _ d) by done.
  reflexivity.
Qed.

Lemma run_disconnect_one_absent i d s :
  available_fw s !! i = Some d →
  found d < 0 →
  disconnect_one i s = (Normal None, s).
Proof.
  intros Hd Hf. unfold disconnect_one.
  rewrite run_bind, (run_read_available_fw _ d) by done.
  by replace (0 <=? found d) with false by (symmetry; apply Z.leb_gt; lia).
Qed.

(** The teardown loop over descriptors that hold the slots [k .. n - 1], whose
    images are [ptrs]. *)
Lemma disconnect_loop_run (rest : list smi2021_firmware) (k n : nat) :
  slots k rest n →
  ∀ (pre : list smi2021_firmware) (ptrs : list fw_ptr) (s : kstate),
    available_fw s = pre ++ rest →
    length ptrs = (n - k)%nat →
    (∀ j p, ptrs !! j = Some p → firmware s !! (k + j)%nat = Some (Some p)) →
    NoDup (fw_addr <$> ptrs) →
    (∀ p, p ∈ ptrs → fw_addr p ∈ fw_live s) →
    ∃ s',
      for_each (length rest) (length pre) disconnect_one s = (Normal None, s')
      ∧ available_fw s' = pre ++ (set_found (-1) <$> rest)
      ∧ (∀ j, firmware s' !! j
              = if decide (k ≤ j < n)%nat then Some None else firmware s !! j)
      ∧ firmwares s' = firmwares s
      ∧ firmware_version s' = firmware_version s
      ∧ fw_live s' = fw_live s ∖ list_to_set (fw_addr <$> ptrs)
      ∧ fw_next s' = fw_next s
      ∧ klog s' = klog s ++ (EvReleaseFirmware ∘ fw_addr <$> ptrs).
Proof.
  induction 1 as [k|k d ds n Hf Hsl IH|k d ds n Hf Hsl IH];
    intros pre ptrs s Hav Hlen Hptr Hnd Hlive.
  - exists s. replace (k - k)%nat with 0%nat in Hlen by lia.
    apply nil_length_inv in Hlen as ->. simpl.
    split; [done|]. split; [done|]. split.
    { intros j. by rewrite decide_False by lia. }
    split; [done|]. split; [done|].
    split; [by rewrite difference_empty_L|]. split; [done|].
    by rewrite app_nil_r.
  - cbn [length]. rewrite for_each_S.
    rewrite (run_disconnect_one_absent _ d)
      by ((rewrite Hav; apply lookup_middle) || lia).
    destruct (IH (pre ++ [d]) ptrs s)
      as (s' & Hrun & Hav' & Hfw & Hc & Hv & Hlv & Hnx & Hlog); try done.
    { by rewrite Hav, <- app_assoc. }
    rewrite length_snoc in Hrun. exists s'.
    split; [done|]. split; [|done].
    rewrite Hav', <- app_assoc, fmap_cons. simpl.
    by rewrite set_found_absent.
  - pose proof (slots_le _ _ _ Hsl) as Hle.
    destruct ptrs as [|p ptrs]; [simpl in Hlen; lia|].
    cbn [length]. rewrite for_each_S.
    rewrite (run_disconnect_one_present _ d k p);
      [|rewrite Hav; apply lookup_middle|done| |].
    2:{ specialize (Hptr 0%nat p eq_refl). by rewrite Nat.add_0_r in Hptr. }
    2:{ apply Hlive. left. }
    set (s2 := {| available_fw := _ |}).
    rewrite fmap_cons in Hnd. apply NoDup_cons in Hnd as [Hnotin Hnd].
    destruct (IH (pre ++ [set_found (-1) d]) ptrs s2)
      as (s' & Hrun & Hav' & Hfw & Hc & Hv & Hlv & Hnx & Hlog).
    { subst s2. cbn [available_fw]. rewrite Hav. apply insert_middle. }
    { simpl in Hlen. lia. }
    { intros j q Hq. subst s2. cbn [firmware].
      rewrite list_lookup_insert_ne by lia.
      replace (S k + j)%nat with (k + S j)%nat by lia. by apply Hptr. }
    { done. }
    { intros q Hq. subst s2. cbn [fw_live].
      apply elem_of_difference. split; [apply Hlive; by right|].
      intros Heq%elem_of_singleton. apply Hnotin. rewrite <- Heq.
      by apply list_elem_of_fmap_2. }
    rewrite length_snoc in Hrun. exists s'.
    subst s2. cbn [firmware firmwares firmware_version fw_live fw_next klog]
      in *.
    split; [done|]. split; [by rewrite Hav', <- app_assoc|]. split.
    { intros j. rewrite Hfw.
      destruct (decide (j = k)) as [->|Hjk].
      - rewrite decide_False, decide_True by lia.
        apply list_lookup_insert_eq.
        specialize (Hptr 0%nat p eq_refl). rewrite Nat.add_0_r in Hptr.
        by eapply lookup_lt_Some.
      - rewrite list_lookup_insert_ne by done.
        destruct (decide (S k ≤ j < n)%nat), (decide (k ≤ j < n)%nat);
          (done || lia). }
    split; [done|]. split; [done|]. split.
    { rewrite Hlv, fmap_cons. cbn [list_to_set foldr].
      by rewrite difference_difference_l_L. }
    split; [done|].
    by rewrite Hlog, fmap_cons, <- app_assoc.
Qed.

Lemma slots_all_absent ds :
  Forall (λ d, found d = -1) ds → ∀ k, slots k ds k.
Proof.
  induction 1 as [|d ds Hd _ IH]; intros k; [constructor|].
  by apply slots_absent.
Qed.

Lemma slots_none k ds : slots k ds k → Forall (λ d, found d = -1) ds.
Proof.
  remember k as n eqn:Hn. rewrite Hn at 1. intros H. revert Hn.
  induction H as [k|k d ds n Hf Hsl IH|k d ds n Hf Hsl IH]; intros Hn.
  - constructor.
  - constructor; [done|]. by apply IH.
  - apply slots_le in Hsl. lia.
Qed.

Lemma set_found_absent_all ds :
  Forall (λ d, found d = -1) ds → set_found (-1) <$> ds = ds.
Proof.
  induction 1 as [|d ds Hd _ IH]; [done|].
  by rewrite fmap_cons, IH, set_found_absent.
Qed.

(** Teardown with nothing loaded changes nothing. *)
Lemma disconnect_nothing_loaded s :
  nothing_loaded s → smi2021_bootloader_disconnect s = (Normal tt, s).
Proof.
  intros [Habs Hcnt].
  destruct (disconnect_loop_run (available_fw s) 0 0
              (slots_all_absent _ Habs 0%nat) [] [] s)
    as (s' & Hrun & Hav & Hfw & Hc & Hv & Hlv & Hnx & Hlog); try done.
  { constructor. }
  { by intros p Hp%elem_of_nil. }
  unfold smi2021_bootloader_disconnect, ARRAY_SIZE_available_fw.
  rewrite run_bind, run_gets, run_bind. simpl in Hrun. rewrite Hrun.
  unfold set_firmwares, modify. f_equal.
  apply kstate_eq; cbn [upd_firmwares available_fw firmware firmwares
                        firmware_version fw_live fw_next klog].
  - by rewrite Hav, set_found_absent_all.
  - apply list_eq. intros j. rewrite Hfw. by rewrite decide_False by lia.
  - done.
  - done.
  - rewrite Hlv. simpl. by rewrite difference_empty_L.
  - done.
  - rewrite Hlog. simpl. by rewrite app_nil_r.
Qed.

(** Teardown of a catalog state, the state a probe from a clean start leaves:
    the images [ptrs] of the catalog are released, each once, their slots are
    cleared, every descriptor is marked absent and the count is reset; a
    second teardown changes nothing. *)
Theorem disconnect_releases_all_and_is_idempotent (s : kstate)
    (ptrs : list fw_ptr) :
  catalog s ptrs →
  ∃ s1,
    smi2021_bootloader_disconnect s = (Normal tt, s1)
    ∧ klog s1 = klog s ++ (EvReleaseFirmware ∘ fw_addr <$> ptrs)
    ∧ NoDup (fw_addr <$> ptrs)
    ∧ fw_live s1 = fw_live s ∖ list_to_set (fw_addr <$> ptrs)
    ∧ (∀ j, (j < length ptrs)%nat → firmware s1 !! j = Some None)
    ∧ Forall (λ d, found d = -1) (available_fw s1)
    ∧ firmwares s1 = -1
    ∧ smi2021_bootloader_disconnect s1 = (Normal tt, s1)
    ∧ (ptrs = [] → s1 = s).
Proof.
  intros (Hcnt & Hsl & Hptr & Hnd & Hlive).
  destruct (disconnect_loop_run (available_fw s) 0 (length ptrs) Hsl
              [] ptrs s)
    as (s' & Hrun & Hav & Hfw & Hc & Hv & Hlv & Hnx & Hlog); try done.
  { lia. }
  assert (smi2021_bootloader_disconnect s
          = (Normal tt, upd_firmwares (-1) s')) as Hdis.
  { unfold smi2021_bootloader_disconnect, ARRAY_SIZE_available_fw.
    rewrite run_bind, run_gets, run_bind. simpl in Hrun. by rewrite Hrun. }
  assert (Forall (λ d, found d = -1) (available_fw (upd_firmwares (-1) s')))
    as Habs.
  { cbn [upd_firmwares available_fw]. rewrite Hav. simpl.
    apply Forall_fmap, Forall_true. by intros d. }
  exists (upd_firmwares (-1) s'). split; [done|].
  split; [done|]. split; [done|]. split; [done|]. split.
  { intros j Hj. cbn [upd_firmwares firmware]. rewrite Hfw.
    by rewrite decide_True by lia. }
  split; [done|]. split; [done|]. split.
  { by apply disconnect_nothing_loaded. }
  intros ->. simpl in Hcnt, Hsl.
  assert (nothing_loaded s) as Hnl by (split; [by apply (slots_none 0)|done]).
  rewrite (disconnect_nothing_loaded s Hnl) in Hdis. congruence.
Qed.

Lemma probed_two_files_catalog (version : Z) :
  catalog (probed_two_files version) [ptr_3e; ptr_3f].
Proof.
  unfold catalog. split; [reflexivity|]. split.
  { apply slots_absent; [reflexivity|].
    apply slots_present; [reflexivity|].
    apply slots_present; [reflexivity|]. apply slots_nil. }
  split.
  { intros [|[|j]] p Hp; simpl in Hp; try discriminate;
      injection Hp as <-; reflexivity. }
  split.
  { apply (bool_decide_unpack _). vm_compute. exact I. }
  intros p Hp. apply (bool_decide_unpack _).
  apply elem_of_cons in Hp as [->|Hp]; [vm_compute; exact I|].
  apply elem_of_cons in Hp as [->|Hp]; [vm_compute; exact I|].
  by apply elem_of_nil in Hp.
Qed.

Lemma disconnect_releases_all_and_is_idempotent_witness :
  let s := probed_two_files 0 in
  let ptrs := [ptr_3e; ptr_3f] in
  ∃ s1,
    smi2021_bootloader_disconnect s = (Normal tt, s1)
    ∧ klog s1 = klog s ++ (EvReleaseFirmware ∘ fw_addr <$> ptrs)
    ∧ NoDup (fw_addr <$> ptrs)
    ∧ fw_live s1 = fw_live s ∖ list_to_set (fw_addr <$> ptrs)
    ∧ (∀ j, (j < length ptrs)%nat → firmware s1 !! j = Some None)
    ∧ Forall (λ d, found d = -1) (available_fw s1)
    ∧ firmwares s1 = -1
    ∧ smi2021_bootloader_disconnect s1 = (Normal tt, s1)
    ∧ (ptrs = [] → s1 = s).
Proof.
  intros s ptrs.
  apply (disconnect_releases_all_and_is_idempotent s ptrs).
  apply probed_two_files_catalog.
Defined.

(** ** Selection: lines 210-223 and smi2021_choose_firmware *)

Lemma omap_catalog_view s :
  omap snd (catalog_view s) = omap (descriptor_image s) (available_fw s).
Proof.
  unfold catalog_view. generalize (available_fw s) as ds.
  induction ds as [|d ds IH]; [done|]. simpl.
  destruct (descriptor_image s d); [f_equal|]; exact IH.
Qed.

Lemma descriptor_image_absent s d : found d = -1 → descriptor_image s d = None.
Proof. unfold descriptor_image. by intros ->. Qed.

Lemma descriptor_image_slot s d (j : nat) p :
  found d = Z.of_nat j → firmware s !! j = Some (Some p) →
  descriptor_image s d = Some p.
Proof.
  unfold descriptor_image. intros -> Hp.
  replace (0 <=? Z.of_nat j) with true by (symmetry; apply Z.leb_le; lia).
  by rewrite Nat2Z.id, Hp.
Qed.

Lemma omap_cons_some {A B} (f : A → option B) x l y :
  f x = Some y → omap f (x :: l) = y :: omap f l.
Proof. intros H. simpl. by rewrite H. Qed.

Lemma omap_cons_none {A B} (f : A → option B) x l :
  f x = None → omap f (x :: l) = omap f l.
Proof. intros H. simpl. by rewrite H. Qed.

(** The images of the present descriptors are the loaded images, in order. *)
Lemma catalog_images s (ds : list smi2021_firmware) (k n : nat) :
  slots k ds n →
  ∀ ptrs : list fw_ptr,
    length ptrs = (n - k)%nat →
    (∀ j p, ptrs !! j = Some p → firmware s !! (k + j)%nat = Some (Some p)) →
    omap (descriptor_image s) ds = ptrs ∧ Forall (resolved s) ds.
Proof.
  induction 1 as [k|k d ds n Hf Hsl IH|k d ds n Hf Hsl IH];
    intros ptrs Hlen Hptr.
  - replace (k - k)%nat with 0%nat in Hlen by lia.
    by apply nil_length_inv in Hlen as ->.
  - destruct (IH ptrs Hlen Hptr) as [Himg Hres].
    rewrite omap_cons_none by (by apply descriptor_image_absent).
    split; [done|]. constructor; [by left|done].
  - pose proof (slots_le _ _ _ Hsl) as Hle.
    destruct ptrs as [|p ptrs]; [simpl in Hlen; lia|].
    assert (firmware s !! k = Some (Some p)) as Hp.
    { specialize (Hptr 0%nat p eq_refl). by rewrite Nat.add_0_r in Hptr. }
    destruct (IH ptrs) as [Himg Hres].
    { simpl in Hlen. lia. }
    { intros j q Hq. replace (S k + j)%nat with (k + S j)%nat by lia.
      by apply Hptr. }
    rewrite (omap_cons_some _ _ _ p)
      by (by apply (descriptor_image_slot s d k p)).
    split; [by rewrite Himg|]. constructor; [|done].
    right. by exists k, p.
Qed.

Lemma uint_wrap_id d : id_ok d → uint_wrap (id d) = id d.
Proof.
  unfold id_ok, INT_MAX, uint_wrap. intros H. apply Z.mod_small. lia.
Qed.

(** The loop of smi2021_choose_firmware: the first present descriptor with
    the identifier [firmware_version] is uploaded. *)
Lemma choose_loop_run env udev :
  ∀ (rest pre : list smi2021_firmware) (s : kstate),
    available_fw s = pre ++ rest →
    Forall (resolved s) rest → Forall id_ok rest →
    for_each (length rest) (length pre) (choose_one env udev) s =
    match find_preferred (firmware_version s)
            ((λ d, (id d, descriptor_image s d)) <$> rest) with
    | Some img =>
        returned (smi2021_load_firmware env (Some udev) (Some img) s)
    | None => (Normal None, s)
    end.
Proof.
  induction rest as [|d rest IH]; intros pre s Hav Hres Hid; [done|].
  apply Forall_cons in Hres as [Hd Hres]. apply Forall_cons in Hid as [Hi Hid].
  cbn [length]. rewrite for_each_S. unfold choose_one at 1.
  rewrite run_bind, (run_read_available_fw _ d)
    by (rewrite Hav; apply lookup_middle).
  rewrite run_bind, run_gets, (uint_wrap_id d Hi).
  rewrite fmap_cons. cbn [find_preferred].
  assert (for_each (length rest) (S (length pre)) (choose_one env udev) s =
          match find_preferred (firmware_version s)
                  ((λ d, (id d, descriptor_image s d)) <$> rest) with
          | Some img =>
              returned (smi2021_load_firmware env (Some udev) (Some img) s)
          | None => (Normal None, s)
          end) as Hnext.
  { rewrite <- (length_snoc pre d). apply IH; [|done|done].
    by rewrite Hav, <- app_assoc. }
  destruct Hd as [Habs|(j & p & Hj & Hp)].
  - rewrite descriptor_image_absent by done. rewrite Habs.
    rewrite andb_false_r. by rewrite run_ret.
  - rewrite (descriptor_image_slot s d j p) by done. rewrite Hj.
    replace (0 <=? Z.of_nat j) with true by (symmetry; apply Z.leb_le; lia).
    rewrite andb_true_r, (Z.eqb_sym (firmware_version s)).
    destruct (id d =? firmware_version s); [|by rewrite run_ret].
    rewrite run_bind, (run_read_firmware _ (Some p)) by done.
    rewrite run_bind. unfold returned.
    by destruct (smi2021_load_firmware env (Some udev) (Some p) s)
      as [[rc|f] s'].
Qed.


Lemma find_preferred_present v cat img :
  find_preferred v cat = Some img → img ∈ omap snd cat.
Proof.
  induction cat as [|[i [p|]] cat IH]; [done| |]; simpl.
  - destruct (i =? v).
    + intros [= ->]. left.
    + intros H. right. by apply IH.
  - done.
Qed.

Lemma run_choose_firmware env udev s :
  Forall (resolved s) (available_fw s) → Forall id_ok (available_fw s) →
  smi2021_choose_firmware env udev s =
  match find_preferred (firmware_version s) (catalog_view s) with
  | Some img => smi2021_load_firmware env (Some udev) (Some img) s
  | None => (Normal 0, s)
  end.
Proof.
  intros Hres Hid. unfold smi2021_choose_firmware, ARRAY_SIZE_available_fw.
  rewrite run_bind, run_gets, run_bind.
  change 0%nat with (length (@nil smi2021_firmware)).
  rewrite (choose_loop_run env udev (available_fw s) [] s) by done.
  fold (catalog_view s).
  destruct (find_preferred _ _) as [img|]; [|done].
  unfold returned.
  by destruct (smi2021_load_firmware env (Some udev) (Some img) s)
    as [[rc|f] s'].
Qed.


Lemma probed_two_files_ids (version : Z) :
  Forall id_ok (available_fw (probed_two_files version)).
Proof. repeat constructor; unfold id_ok, INT_MAX; simpl; lia. Qed.


(** ** More on the upload *)

Lemma upload_log_prefix fw (m n : nat) :
  (m ≤ n)%nat → upload_log fw m `prefix_of` upload_log fw n.
Proof.
  intros H. unfold upload_log. apply prefix_cons.
  replace n with (m + (n - m))%nat by lia. rewrite seq_app, fmap_app.
  by apply prefix_app_r.
Qed.

(** The loop against any device: it ends normally, after the chunks
    [i .. m - 1], and only a refused chunk ends it early. *)
Lemma upload_chunks_any udev fw (N : nat) (L0 : list kevent) :
  length (fw_data fw) = (62 * N)%nat →
  fw_size fw ≤ INT_MAX →
  ∀ (n i fuel : nat) (chunk : list byte) (s : kstate),
    (i + n = N)%nat → (n < fuel)%nat →
    length chunk = 64%nat → take 2 chunk = [x05; xff] →
    klog s = L0 ++ upload_log fw i →
    ∃ (r : option Z) (m : nat),
      (i ≤ m ≤ N)%nat
      ∧ upload_chunks udev fw 64 fuel (Z.of_nat i) chunk s
        = (Normal r, with_klog s (L0 ++ upload_log fw m))
      ∧ match r with
        | None => m = N
        | Some rc =>
            rc < 0 ∧ (0 < m)%nat
            ∧ rc = fst (usb_respond udev (L0 ++ upload_log fw (m - 1))
                          (chunk_xfer fw (m - 1)))
        end.
Proof.
  intros Hsize Hint. induction n as [|n IH];
    intros i fuel chunk s HiN Hfuel Hlen Hhdr Hlog.
  - exists None, N. split; [lia|]. split; [|done].
    apply (upload_chunks_complete udev fw N Hsize Hint L0 0 i);
      (done || lia || (intros j Hj; lia)).
  - destruct (Z_lt_ge_dec
                (fst (usb_respond udev (L0 ++ upload_log fw i)
                        (chunk_xfer fw i))) 0) as [Hneg|Hpos].
    + exists (Some (fst (usb_respond udev (L0 ++ upload_log fw i)
                           (chunk_xfer fw i)))), (S i).
      split; [lia|]. split.
      * replace (S i) with (S (i + 0)) by lia.
        apply (upload_chunks_abort udev fw N Hsize Hint L0 _ 0 i);
          (done || lia || (intros j Hj; lia) || by rewrite Nat.add_0_r).
      * split; [done|]. split; [lia|].
        by replace (S i - 1)%nat with i by lia.
    + destruct fuel as [|fuel]; [lia|]. simpl.
      pose proof Hint as Hmax. unfold fw_size, INT_MAX in Hmax.
      rewrite (fw_size_div fw N Hsize), to_size_t_small
        by (unfold INT_MAX; lia).
      replace (Z.of_nat i <? Z.of_nat N) with true
        by (symmetry; apply Z.ltb_lt; lia).
      rewrite run_bind, (memcpy_chunk fw N Hsize Hint) by (done || lia).
      rewrite run_bind, run_usb_control_msg. cbn [fst snd].
      change (chunk_write (chunk_payload fw i) 64) with (chunk_xfer fw i).
      rewrite Hlog.
      replace (_ <? 0) with false by (symmetry; apply Z.ltb_ge; lia).
      rewrite int_wrap_small by (unfold INT_MAX; lia).
      replace (Z.of_nat i + 1) with (Z.of_nat (S i)) by lia.
      destruct (IH (S i) fuel (chunk_payload fw i)
                  (with_klog s ((L0 ++ upload_log fw i)
                                ++ [EvUsb (chunk_xfer fw i)])))
        as (r & m & Hm & Hrun & Hr); try lia.
      * by apply (chunk_payload_length fw N Hsize); lia.
      * done.
      * simpl. by rewrite upload_log_S, app_assoc.
      * exists r, m. split; [lia|]. split; [|done].
        by rewrite Hrun.
Qed.

Lemma overwrite_ack_length data : length (overwrite [x00; x00] data) = 2%nat.
Proof.
  unfold overwrite. rewrite length_take, length_app, length_drop.
  cbn [length]. lia.
Qed.

(** The two ways an upload goes on after the size check: the handshake fails
    and the function returns, or the answer is [01 07] and the chunk loop
    starts. *)
Lemma load_firmware_cases env udev p s :
  kzalloc_ok env = true →
  fw_size (fw_obj p) mod FIRMWARE_CHUNK_SIZE = 0 →
  let r := usb_respond udev (klog s) handshake_read in
  let s1 := with_klog s (klog s ++ upload_log (fw_obj p) 0) in
  ((fst r < 0 ∨ overwrite [x00; x00] (snd r) ≠ [x01; x07])
   ∧ smi2021_load_firmware env (Some udev) (Some p) s = (Normal (fst r), s1))
  ∨ (0 ≤ fst r ∧ overwrite [x00; x00] (snd r) = [x01; x07]
     ∧ smi2021_load_firmware env (Some udev) (Some p) s =
       (r ← upload_chunks udev (fw_obj p) 64 (upload_fuel (fw_obj p)) 0
              (<[1%nat := xff]> (<[0%nat := x05]>
                 (replicate
                    (Z.to_nat (FIRMWARE_CHUNK_SIZE + FIRMWARE_HEADER_SIZE))
                    x00)));
        match r with
        | Some rc => ret rc
        | None =>
            r ← usb_control_msg udev ack_xfer [x07; x00];
            if fst r <? 0 then ret (fst r) else ret 0
        end) s1).
Proof.
  intros Hk Hmod r s1. rewrite load_firmware_handshake by done.
  cbn zeta. fold r.
  replace (u16_store (big_endian env) 0) with [x00; x00]
    by (by destruct (big_endian env)).
  destruct (fst r <? 0) eqn:Hrc.
  { left. apply Z.ltb_lt in Hrc. split; [by left|done]. }
  apply Z.ltb_ge in Hrc.
  pose proof (overwrite_ack_length (snd r)) as Hlen.
  destruct (overwrite [x00; x00] r.2) as [|b0 [|b1 [|??]]] eqn:Hov;
    try done.
  destruct (negb _) eqn:Htest.
  - left. split; [|done]. right. intros [= -> ->].
    rewrite handshake_reply_accepted in Htest. done.
  - right. apply negb_false_iff, Z.eqb_eq in Htest.
    apply handshake_test_bytes in Htest as [-> ->].
    split; [done|]. split; [done|].
    by rewrite completion_payload.
Qed.


(** X1: whatever the byte order of the host, the handshake test of line 127
    accepts exactly the answer whose two bytes are 01 07. *)
Theorem handshake_test_iff (be : bool) (b0 b1 : byte) :
  __cpu_to_be16 be (u16_load be [b0; b1]) = 0x0107 ↔ b0 = x01 ∧ b1 = x07.
Proof.
  split; [apply handshake_test_bytes|].
  intros [-> ->]. apply handshake_reply_accepted.
Qed.

(** X2: a handshake that fails, by a transport error or by an answer other
    than 01 07, ends the upload after that one read: the read is the only
    control transfer, nothing is written to the device, and the value
    returned is the return value of usb_control_msg. *)
Theorem load_firmware_handshake_failure env udev (p : fw_ptr) (s : kstate) :
  kzalloc_ok env = true →
  fw_size (fw_obj p) mod FIRMWARE_CHUNK_SIZE = 0 →
  fst (usb_respond udev (klog s) handshake_read) < 0
  ∨ overwrite [x00; x00] (snd (usb_respond udev (klog s) handshake_read))
    ≠ [x01; x07] →
  smi2021_load_firmware env (Some udev) (Some p) s
  = (Normal (fst (usb_respond udev (klog s) handshake_read)),
     with_klog s (klog s ++ [EvUsb handshake_read]))
  ∧ usb_writes (klog (snd (smi2021_load_firmware env (Some udev) (Some p) s)))
    = usb_writes (klog s).
Proof.
  intros Hk Hmod Hbad.
  destruct (load_firmware_cases env udev p s Hk Hmod)
    as [[_ Hrun]|(Hrc & Hack & _)].
  - rewrite Hrun. split; [done|]. cbn [snd klog with_klog].
    unfold usb_writes, usb_transfers. rewrite omap_app. simpl.
    rewrite filter_app. cbn. by rewrite app_nil_r.
  - destruct Hbad as [Hneg|Hne]; [lia|done].
Qed.

Lemma load_firmware_handshake_failure_witness :
  smi2021_load_firmware (mk_env true no_files)
    (Some (device_replying 2 [x07; x01])) (Some ptr_3e) (initial_state 0)
  = (Normal 2, with_klog (initial_state 0) [EvUsb handshake_read])
  ∧ usb_writes (klog (snd (smi2021_load_firmware (mk_env true no_files)
       (Some (device_replying 2 [x07; x01])) (Some ptr_3e) (initial_state 0))))
    = usb_writes (klog (initial_state 0)).
Proof.
  apply (load_firmware_handshake_failure (mk_env true no_files)
           (device_replying 2 [x07; x01]) ptr_3e (initial_state 0)).
  - reflexivity.
  - reflexivity.
  - right. vm_compute. discriminate.
Defined.

(** X3: when every chunk is accepted and the completion write fails, the
    upload returns the error of the completion write; all N chunks and the
    completion write are on the wire by then. *)
Theorem load_firmware_ack_failure env udev (p : fw_ptr) (N : nat)
    (s : kstate) (rc : Z) :
  let fw := fw_obj p in
  kzalloc_ok env = true →
  length (fw_data fw) = (62 * N)%nat →
  fw_size fw ≤ INT_MAX →
  0 ≤ fst (usb_respond udev (klog s) handshake_read) →
  overwrite [x00; x00] (snd (usb_respond udev (klog s) handshake_read))
  = [x01; x07] →
  (∀ j, (j < N)%nat →
     0 ≤ fst (usb_respond udev (klog s ++ upload_log fw j) (chunk_xfer fw j))) →
  fst (usb_respond udev (klog s ++ upload_log fw N) ack_xfer) = rc →
  rc < 0 →
  smi2021_load_firmware env (Some udev) (Some p) s
  = (Normal rc, with_klog s (klog s ++ full_upload_log fw N)).
Proof.
  intros fw Hk Hsize Hint Hrc0 Hack Hchunks Hrc Hneg. subst fw.
  destruct (load_firmware_cases env udev p s Hk
              (fw_size_mod (fw_obj p) N Hsize))
    as [[[Hbad|Hbad] _]|(_ & _ & Hrun)]; [lia|done|].
  rewrite Hrun, run_bind. destruct initial_chunk as [Hlen Hhdr].
  rewrite (upload_chunks_complete udev (fw_obj p) N Hsize Hint (klog s) N
             0%nat); try done.
  - rewrite run_bind, run_usb_control_msg. cbn [fst snd klog with_klog].
    rewrite Hrc.
    replace (rc <? 0) with true by (symmetry; apply Z.ltb_lt; lia).
    rewrite run_ret, !with_klog_twice. unfold full_upload_log.
    by rewrite app_assoc.
  - unfold upload_fuel. rewrite (fw_size_div (fw_obj p) N Hsize). lia.
  - intros j Hj. apply Hchunks. lia.
Qed.

Lemma load_firmware_ack_failure_witness :
  smi2021_load_firmware (mk_env false no_files) (Some device_refusing_ack)
    (Some ptr_3e) (initial_state 0)
  = (Normal (-32),
     with_klog (initial_state 0)
       (klog (initial_state 0) ++ full_upload_log (fw_obj ptr_3e) 2)).
Proof.
  apply (load_firmware_ack_failure (mk_env false no_files)
           device_refusing_ack ptr_3e 2 (initial_state 0) (-32)).
  - reflexivity.
  - reflexivity.
  - vm_compute. discriminate.
  - vm_compute. discriminate.
  - reflexivity.
  - intros j Hj. vm_compute. discriminate.
  - reflexivity.
  - lia.
Defined.

(** X4: an empty image passes the size check (0 is a multiple of 62): after
    the handshake no chunk is written, the completion write is sent at once
    and the upload returns 0. *)
Theorem load_firmware_empty_image env udev (p : fw_ptr) (s : kstate) :
  kzalloc_ok env = true →
  fw_data (fw_obj p) = [] →
  0 ≤ fst (usb_respond udev (klog s) handshake_read) →
  overwrite [x00; x00] (snd (usb_respond udev (klog s) handshake_read))
  = [x01; x07] →
  0 ≤ fst (usb_respond udev (klog s ++ [EvUsb handshake_read]) ack_xfer) →
  smi2021_load_firmware env (Some udev) (Some p) s
  = (Normal 0,
     with_klog s (klog s ++ [EvUsb handshake_read; EvUsb ack_xfer])).
Proof.
  intros Hk Hdata Hrc0 Hack Hrc.
  assert (length (fw_data (fw_obj p)) = (62 * 0)%nat) as Hsize
    by (by rewrite Hdata).
  assert (fw_size (fw_obj p) ≤ INT_MAX) as Hint
    by (unfold fw_size, INT_MAX; rewrite Hdata; simpl; lia).
  destruct (load_firmware_cases env udev p s Hk
              (fw_size_mod (fw_obj p) 0 Hsize))
    as [[[Hbad|Hbad] _]|(_ & _ & Hrun)]; [lia|done|].
  rewrite Hrun, run_bind. destruct initial_chunk as [Hlen Hhdr].
  rewrite (upload_chunks_complete udev (fw_obj p) 0 Hsize Hint (klog s) 0
             0%nat); try done.
  - rewrite run_bind, run_usb_control_msg. cbn [fst snd klog with_klog].
    change (upload_log (fw_obj p) 0) with [EvUsb handshake_read].
    replace (_ <? 0) with false by (symmetry; apply Z.ltb_ge; lia).
    rewrite run_ret, !with_klog_twice. by rewrite <- app_assoc.
  - unfold upload_fuel. rewrite (fw_size_div (fw_obj p) 0 Hsize). lia.
  - intros j Hj. lia.
Qed.

Lemma load_firmware_empty_image_witness :
  smi2021_load_firmware (mk_env false no_files) (Some good_device)
    (Some (blob_of_size 0)) (initial_state 0)
  = (Normal 0,
     with_klog (initial_state 0)
       (klog (initial_state 0) ++ [EvUsb handshake_read; EvUsb ack_xfer])).
Proof.
  apply (load_firmware_empty_image (mk_env false no_files) good_device
           (blob_of_size 0) (initial_state 0)).
  - reflexivity.
  - reflexivity.
  - vm_compute. discriminate.
  - reflexivity.
  - vm_compute. discriminate.
Defined.

(** Against any device the upload returns, and sends a prefix of the fixed
    sequence. *)
Lemma load_firmware_run_any env udev (p : fw_ptr) (N : nat)
    (s : kstate) :
  kzalloc_ok env = true →
  length (fw_data (fw_obj p)) = (62 * N)%nat →
  fw_size (fw_obj p) ≤ INT_MAX →
  ∃ (rc : Z) (l : list kevent),
    smi2021_load_firmware env (Some udev) (Some p) s
    = (Normal rc, with_klog s (klog s ++ l))
    ∧ l `prefix_of` full_upload_log (fw_obj p) N
    ∧ l ≠ [].
Proof.
  intros Hk Hsize Hint.
  destruct (load_firmware_cases env udev p s Hk
              (fw_size_mod (fw_obj p) N Hsize))
    as [[_ Hrun]|(_ & _ & Hrun)].
  - eexists _, _. split; [exact Hrun|]. split; [|done].
    apply prefix_app_r, (upload_log_prefix _ 0 N). lia.
  - destruct initial_chunk as [Hlen Hhdr].
    match type of Hlen with
    | length ?c = _ =>
        destruct (upload_chunks_any udev (fw_obj p) N (klog s) Hsize Hint N
                    0%nat (upload_fuel (fw_obj p)) c
                    (with_klog s (klog s ++ upload_log (fw_obj p) 0))
                    eq_refl)
          as (r & m & Hm & Hloop & Hr); try done
    end.
    { unfold upload_fuel. rewrite (fw_size_div (fw_obj p) N Hsize). lia. }
    rewrite Hrun, run_bind. change (Z.of_nat 0) with 0 in Hloop.
    rewrite Hloop. destruct r as [rc|].
    + exists rc, (upload_log (fw_obj p) m). split; [done|]. split; [|done].
      apply prefix_app_r, upload_log_prefix. lia.
    + subst m. rewrite run_bind, run_usb_control_msg.
      cbn [fst snd klog with_klog].
      set (ra := usb_respond udev _ ack_xfer).
      exists (if fst ra <? 0 then fst ra else 0),
             (full_upload_log (fw_obj p) N).
      split.
      * destruct (fst ra <? 0); rewrite run_ret, !with_klog_twice;
          unfold full_upload_log; by rewrite app_assoc.
      * split; [done|]. unfold full_upload_log.
        by destruct (upload_log (fw_obj p) N).
Qed.

(** X5: against any device, an upload of an image of 62 * N bytes returns
    normally, and what it put on the wire is a non-empty prefix of the fixed
    sequence handshake read, chunk 0, ..., chunk N - 1, completion write:
    nothing else is ever sent, nothing is sent twice or out of order, and the
    bytes sent do not depend on the answers of the device. *)
Theorem load_firmware_sends_prefix env udev (p : fw_ptr) (N : nat)
    (s : kstate) :
  kzalloc_ok env = true →
  length (fw_data (fw_obj p)) = (62 * N)%nat →
  fw_size (fw_obj p) ≤ INT_MAX →
  ∃ (rc : Z) (l : list kevent),
    smi2021_load_firmware env (Some udev) (Some p) s
    = (Normal rc, with_klog s (klog s ++ l))
    ∧ l `prefix_of` full_upload_log (fw_obj p) N
    ∧ l ≠ [].
Proof. apply load_firmware_run_any. Qed.

Lemma load_firmware_sends_prefix_witness :
  ∃ (rc : Z) (l : list kevent),
    smi2021_load_firmware (mk_env false no_files)
      (Some (device_failing_after 1)) (Some ptr_3e) (initial_state 0)
    = (Normal rc, with_klog (initial_state 0) (klog (initial_state 0) ++ l))
    ∧ l `prefix_of` full_upload_log (fw_obj ptr_3e) 2
    ∧ l ≠ [].
Proof.
  apply (load_firmware_sends_prefix (mk_env false no_files)
           (device_failing_after 1) ptr_3e 2 (initial_state 0)).
  - reflexivity.
  - reflexivity.
  - vm_compute. discriminate.
Defined.

Lemma slices_concat (N : nat) :
  ∀ l : list byte,
    length l = (62 * N)%nat →
    mjoin ((λ i, take 62 (drop (62 * i) l)) <$> seq 0 N) = l.
Proof.
  induction N as [|N IH]; intros l Hl.
  - by apply nil_length_inv in Hl as ->.
  - cbn [seq]. rewrite fmap_cons, <- fmap_S_seq, <- list_fmap_compose.
    cbn [mjoin list_join]. change (drop (62 * 0) l) with l.
    transitivity (take 62 l ++ drop 62 l); [|apply take_drop]. f_equal.
    rewrite <- (IH (drop 62 l)) by (rewrite length_drop; lia).
    f_equal. apply list_fmap_ext. intros _ i _. simpl.
    rewrite drop_drop. do 2 f_equal. lia.
Qed.

(** ** More on probe and teardown *)

(** The upload returns whatever the device and the image do. *)
Lemma load_firmware_returns env udev (p : fw_ptr) (s : kstate) :
  kzalloc_ok env = true →
  fw_size (fw_obj p) ≤ INT_MAX →
  ∃ rc s', smi2021_load_firmware env (Some udev) (Some p) s = (Normal rc, s').
Proof.
  intros Hk Hint.
  destruct (decide (fw_size (fw_obj p) mod FIRMWARE_CHUNK_SIZE = 0))
    as [Hmod|Hmod].
  - destruct (load_firmware_run_any env udev p
                (length (fw_data (fw_obj p)) / 62) s Hk)
      as (rc & l & Hrun & _); [|done|by eauto].
    unfold fw_size, FIRMWARE_CHUNK_SIZE in Hmod.
    pose proof (Nat.div_mod_eq (length (fw_data (fw_obj p))) 62) as Hd.
    assert (length (fw_data (fw_obj p)) `mod` 62 = 0)%nat as H0; [|lia].
    apply Nat2Z.inj. by rewrite Nat2Z.inj_mod.
  - exists (- ENODEV), s. unfold smi2021_load_firmware.
    rewrite run_bind, run_kzalloc by done.
    apply Z.eqb_neq in Hmod. by rewrite Hmod.
Qed.

(** The upload to a device that accepts everything. *)
Lemma load_firmware_accepting env udev (p : fw_ptr) (N : nat) (s : kstate) :
  accepting udev →
  kzalloc_ok env = true →
  length (fw_data (fw_obj p)) = (62 * N)%nat →
  fw_size (fw_obj p) ≤ INT_MAX →
  smi2021_load_firmware env (Some udev) (Some p) s
  = (Normal 0, with_klog s (klog s ++ full_upload_log (fw_obj p) N)).
Proof.
  intros [Hin Hout] Hk Hsize Hint.
  destruct (Hin (klog s) handshake_read eq_refl) as [Hrc0 Hdata].
  destruct (load_firmware_cases env udev p s Hk
              (fw_size_mod (fw_obj p) N Hsize))
    as [[[Hbad|Hbad] _]|(_ & _ & Hrun)]; [lia|by rewrite Hdata in Hbad|].
  rewrite Hrun, run_bind. destruct initial_chunk as [Hlen Hhdr].
  rewrite (upload_chunks_complete udev (fw_obj p) N Hsize Hint (klog s) N
             0%nat); try done.
  - rewrite run_bind, run_usb_control_msg. cbn [fst snd klog with_klog].
    replace (_ <? 0) with false
      by (symmetry; apply Z.ltb_ge; by apply Hout).
    rewrite run_ret, !with_klog_twice. unfold full_upload_log.
    by rewrite app_assoc.
  - unfold upload_fuel. rewrite (fw_size_div (fw_obj p) N Hsize). lia.
  - intros j Hj. by apply Hout.
Qed.

Lemma found_blobs_none env ds :
  Forall (λ d, fw_loader env (name d) = FwFail 2) ds →
  found_blobs env ds = [] ∧ fatal_code env ds = None.
Proof.
  induction 1 as [|d ds Hd _ [IH1 IH2]]; [done|].
  rewrite found_blobs_cons_none by (unfold loaded; by rewrite Hd).
  simpl. by rewrite Hd.
Qed.

Lemma set_found_assign env ds :
  ∀ k, set_found (-1) <$> assign_slots env k ds = set_found (-1) <$> ds.
Proof.
  induction ds as [|d ds IH]; intros k; [done|]. cbn [assign_slots].
  destruct (loaded env d); rewrite !fmap_cons, IH; done.
Qed.

Lemma assign_slots_none env ds :
  found_blobs env ds = [] → ∀ k, assign_slots env k ds = set_found (-1) <$> ds.
Proof.
  induction ds as [|d ds IH]; intros Hb k; [done|]. cbn [assign_slots].
  destruct (loaded env d) as [b|] eqn:Hl.
  - by rewrite (found_blobs_cons_some env d ds b Hl) in Hb.
  - rewrite (found_blobs_cons_none env d ds Hl) in Hb.
    by rewrite fmap_cons, IH.
Qed.

Lemma usb_transfers_app l l' :
  usb_transfers (l ++ l') = usb_transfers l ++ usb_transfers l'.
Proof. apply omap_app. Qed.

Lemma usb_transfers_requests {A} (f : A → string) (l : list A) :
  usb_transfers (EvRequestFirmware ∘ f <$> l) = [].
Proof. induction l as [|x l IH]; [done|]. exact IH. Qed.

Lemma usb_transfers_usb {A} (f : A → usb_ctrl) (l : list A) :
  usb_transfers (EvUsb ∘ f <$> l) = f <$> l.
Proof. induction l as [|x l IH]; [done|]. simpl. f_equal. exact IH. Qed.

(** X7: when no firmware file is installed, the probe asks for every
    variant, marks every descriptor absent, sends nothing to the device,
    allocates nothing and returns -ENODEV. *)
Theorem probe_without_firmware env udev (s : kstate) :
  firmwares s = -1 →
  length (firmware s) = length (available_fw s) →
  Forall (λ d, fw_loader env (name d) = FwFail 2) (available_fw s) →
  ∃ s',
    smi2021_bootloader_probe env udev s = (Normal (- ENODEV), s')
    ∧ available_fw s' = set_found (-1) <$> available_fw s
    ∧ klog s' = klog s ++ (EvRequestFirmware ∘ name <$> available_fw s)
    ∧ usb_transfers (klog s') = usb_transfers (klog s)
    ∧ fw_live s' = fw_live s
    ∧ firmwares s' = -1.
Proof.
  intros Hcnt Hlen Hnone.
  destruct (found_blobs_none env _ Hnone) as [Hb Hf].
  destruct (probe_all_catalog env s Hcnt Hlen Hf)
    as (s' & Hrun & (Hc & Hsl & Hptr & Hnd & Hlv) & Hav & Hlog & Hver).
  rewrite Hb in *. simpl in Hc.
  destruct (run_probe_all env s Hcnt Hlen)
    as (s'' & Hrun' & _ & _ & _ & _ & Hlive & _).
  rewrite Hrun in Hrun'. injection Hrun' as _ <-.
  destruct (probed_no_fatal env _ Hf) as [Hp _]. rewrite Hp, Hb in Hlive.
  exists s'. unfold smi2021_bootloader_probe. rewrite run_bind, Hrun.
  unfold probe_select. rewrite run_bind, run_gets, Hc.
  split; [done|]. split; [by rewrite Hav, assign_slots_none|].
  split; [done|]. split.
  { by rewrite Hlog, usb_transfers_app, usb_transfers_requests, app_nil_r. }
  split; [|done]. rewrite Hlive. simpl. by rewrite (left_id_L ∅ (∪)).
Qed.

Lemma probe_without_firmware_witness :
  ∃ s',
    smi2021_bootloader_probe (mk_env false no_files) good_device
      (initial_state 0) = (Normal (- ENODEV), s')
    ∧ available_fw s' = set_found (-1) <$> available_fw (initial_state 0)
    ∧ klog s' = klog (initial_state 0)
                ++ (EvRequestFirmware ∘ name <$> available_fw (initial_state 0))
    ∧ usb_transfers (klog s') = usb_transfers (klog (initial_state 0))
    ∧ fw_live s' = fw_live (initial_state 0)
    ∧ firmwares s' = -1.
Proof.
  apply (probe_without_firmware (mk_env false no_files) good_device
           (initial_state 0)).
  - reflexivity.
  - reflexivity.
  - repeat constructor.
Defined.

(** X8: when the probe finds exactly one variant, it uploads that image
    whatever the value of firmware_version; a negative result of the upload
    is the result of the probe, and any other result becomes 0. *)
Theorem probe_single_firmware env udev (s : kstate) (b : firmware_blob) :
  firmwares s = -1 →
  length (firmware s) = length (available_fw s) →
  fatal_code env (available_fw s) = None →
  found_blobs env (available_fw s) = [b] →
  ∃ s',
    probe_all env s = (Normal None, s')
    ∧ klog s' = klog s ++ (EvRequestFirmware ∘ name <$> available_fw s)
    ∧ let r := smi2021_load_firmware env (Some udev)
                 (Some {| fw_addr := fw_next s; fw_obj := b |}) s' in
      smi2021_bootloader_probe env udev s
      = (match fst r with
         | Normal rc => Normal (if rc <? 0 then rc else 0)
         | Fault f => Fault f
         end, snd r).
Proof.
  intros Hcnt Hlen Hf Hb.
  destruct (probe_all_catalog env s Hcnt Hlen Hf)
    as (s' & Hrun & (Hc & Hsl & Hptr & Hnd & Hlv) & Hav & Hlog & Hver).
  rewrite Hb in *. simpl in Hc.
  specialize (Hptr 0%nat _ eq_refl). rewrite Nat.add_0_r in Hptr.
  exists s'. split; [done|]. split; [done|]. cbn zeta.
  unfold smi2021_bootloader_probe. rewrite run_bind, Hrun.
  unfold probe_select. rewrite run_bind, run_gets, Hc.
  change (Z.of_nat 1 - 1) with 0.
  change (0 <? 0) with false. change (0 =? 0) with true. cbv iota.
  rewrite run_bind,
    (run_read_firmware 0 (Some {| fw_addr := fw_next s; fw_obj := b |}))
    by done.
  rewrite run_bind.
  destruct (smi2021_load_firmware env (Some udev) _ s') as [[rc|f] s''];
    [|done].
  cbn [fst snd]. by destruct (rc <? 0).
Qed.

Lemma probe_single_firmware_witness :
  let env := mk_env false one_file in
  let s := initial_state 0x3f in
  ∃ s',
    probe_all env s = (Normal None, s')
    ∧ klog s' = klog s ++ (EvRequestFirmware ∘ name <$> available_fw s)
    ∧ let r := smi2021_load_firmware env (Some good_device)
                 (Some {| fw_addr := fw_next s; fw_obj := blob_3e |}) s' in
      smi2021_bootloader_probe env good_device s
      = (match fst r with
         | Normal rc => Normal (if rc <? 0 then rc else 0)
         | Fault f => Fault f
         end, snd r).
Proof.
  intros env s.
  apply (probe_single_firmware env good_device s blob_3e); reflexivity.
Defined.




(** Teardown of a catalog, as a run. *)
Lemma run_disconnect_catalog (s : kstate) (ptrs : list fw_ptr) :
  catalog s ptrs →
  ∃ s1,
    smi2021_bootloader_disconnect s = (Normal tt, s1)
    ∧ available_fw s1 = set_found (-1) <$> available_fw s
    ∧ firmwares s1 = -1
    ∧ fw_live s1 = fw_live s ∖ list_to_set (fw_addr <$> ptrs)
    ∧ klog s1 = klog s ++ (EvReleaseFirmware ∘ fw_addr <$> ptrs)
    ∧ firmware_version s1 = firmware_version s.
Proof.
  intros (Hcnt & Hsl & Hptr & Hnd & Hlive).
  destruct (disconnect_loop_run (available_fw s) 0 (length ptrs) Hsl
              [] ptrs s)
    as (s' & Hrun & Hav & Hfw & Hc & Hv & Hlv & Hnx & Hlog); try done.
  { lia. }
  exists (upd_firmwares (-1) s'). split; [|done].
  unfold smi2021_bootloader_disconnect, ARRAY_SIZE_available_fw.
  rewrite run_bind, run_gets, run_bind. simpl in Hrun. by rewrite Hrun.
Qed.

Lemma usb_transfers_release_list (l : list nat) :
  usb_transfers (EvReleaseFirmware <$> l) = [].
Proof. induction l as [|x l IH]; [done|]. exact IH. Qed.

(** X10: probe and teardown undo each other on the host.  After a probe from
    a clean state and the teardown that follows it, every firmware object
    the probe allocated is released, exactly the objects that were live
    before are live, every descriptor is absent, the count is -1 again, and
    nothing was sent to the device by either. *)
Theorem probe_then_disconnect_releases_all env (s : kstate) :
  firmwares s = -1 →
  length (firmware s) = length (available_fw s) →
  fatal_code env (available_fw s) = None →
  fresh_next s →
  ∃ s1 s2,
    probe_all env s = (Normal None, s1)
    ∧ smi2021_bootloader_disconnect s1 = (Normal tt, s2)
    ∧ fw_live s2 = fw_live s
    ∧ firmwares s2 = -1
    ∧ available_fw s2 = set_found (-1) <$> available_fw s
    ∧ klog s2
      = klog s ++ (EvRequestFirmware ∘ name <$> available_fw s)
               ++ (EvReleaseFirmware <$>
                     seq (fw_next s)
                       (length (found_blobs env (available_fw s))))
    ∧ usb_transfers (klog s2) = usb_transfers (klog s).
Proof.
  intros Hcnt Hlen Hf Hfresh.
  destruct (probe_all_catalog env s Hcnt Hlen Hf)
    as (s1 & Hrun & Hcat & Hav & Hlog & Hver).
  destruct (run_probe_all env s Hcnt Hlen)
    as (s1' & Hrun' & _ & _ & _ & _ & Hlive & _).
  rewrite Hrun in Hrun'. injection Hrun' as _ <-.
  destruct (probed_no_fatal env _ Hf) as [Hp _]. rewrite Hp in Hlive.
  destruct (run_disconnect_catalog s1 _ Hcat)
    as (s2 & Hdis & Hav2 & Hc2 & Hlive2 & Hlog2 & _).
  rewrite fresh_ptrs_addr in Hlive2.
  assert (klog s2
          = klog s ++ (EvRequestFirmware ∘ name <$> available_fw s)
                   ++ (EvReleaseFirmware <$>
                         seq (fw_next s)
                           (length (found_blobs env (available_fw s)))))
    as Hlog2'.
  { rewrite Hlog2, Hlog, <- app_assoc. do 2 f_equal.
    by rewrite list_fmap_compose, fresh_ptrs_addr. }
  exists s1, s2. split; [done|]. split; [done|]. split.
  { rewrite Hlive2, Hlive. apply set_eq. intros a.
    rewrite elem_of_difference, elem_of_union, elem_of_list_to_set,
      elem_of_seq.
    split; [intros [[?|?] ?]; [lia|done]|].
    intros Ha. specialize (Hfresh a Ha). split; [by right|lia]. }
  split; [done|]. split; [by rewrite Hav2, Hav, set_found_assign|].
  split; [done|].
  rewrite Hlog2', !usb_transfers_app, usb_transfers_requests.
  by rewrite usb_transfers_release_list, !app_nil_r.
Qed.

Lemma probe_then_disconnect_releases_all_witness :
  let env := mk_env false two_files in
  let s := initial_state 0 in
  ∃ s1 s2,
    probe_all env s = (Normal None, s1)
    ∧ smi2021_bootloader_disconnect s1 = (Normal tt, s2)
    ∧ fw_live s2 = fw_live s
    ∧ firmwares s2 = -1
    ∧ available_fw s2 = set_found (-1) <$> available_fw s
    ∧ klog s2
      = klog s ++ (EvRequestFirmware ∘ name <$> available_fw s)
               ++ (EvReleaseFirmware <$>
                     seq (fw_next s)
                       (length (found_blobs env (available_fw s))))
    ∧ usb_transfers (klog s2) = usb_transfers (klog s).
Proof.
  intros env s.
  apply (probe_then_disconnect_releases_all env s).
  - reflexivity.
  - reflexivity.
  - reflexivity.
  - intros a Ha. by apply elem_of_empty in Ha.
Defined.

(** X11: a probe that is ended by a fatal reply returns the error without
    undoing what it did: the images found before the error stay allocated
    and in their slots, none is released, and the count stays at their
    number minus one instead of -1. *)
Theorem probe_abort_keeps_images env udev (s : kstate)
    (pre rest : list smi2021_firmware) (d : smi2021_firmware) (e : positive) :
  firmwares s = -1 →
  length (firmware s) = length (available_fw s) →
  available_fw s = pre ++ d :: rest →
  Forall (harmless env) pre →
  fw_loader env (name d) = FwFail e →
  Z.neg e ≠ - ENOENT →
  ∃ s1,
    smi2021_bootloader_probe env udev s = (Normal (Z.neg e), s1)
    ∧ firmwares s1 = Z.of_nat (length (found_blobs env pre)) - 1
    ∧ fw_live s1
      = list_to_set (seq (fw_next s) (length (found_blobs env pre)))
        ∪ fw_live s
    ∧ (∀ j b, found_blobs env pre !! j = Some b →
         firmware s1 !! j
         = Some (Some {| fw_addr := fw_next s + j; fw_obj := b |}))
    ∧ klog s1 = klog s ++ (EvRequestFirmware ∘ name <$> pre ++ [d]).
Proof.
  intros Hcnt Hlen Hav Hpre Hd He.
  destruct (run_probe_all env s Hcnt Hlen)
    as (s1 & Hrun & Hav1 & Hc & Hl & Hslots & Hlive & Hlog & Hver).
  destruct (probed_app env pre (d :: rest) Hpre) as (Hp & Hr & Hf).
  rewrite Hav, Hp, Hr, Hf in *. clear Hp Hr Hf.
  cbn [probed requested fatal_code] in *. rewrite Hd in *.
  cbn [is_fatal] in *. apply Z.eqb_neq in He. rewrite He in *.
  rewrite app_nil_r in *.
  exists s1. split; [|done].
  unfold smi2021_bootloader_probe. by rewrite run_bind, Hrun.
Qed.

(** The first file is there, the second cannot be read. *)
Lemma probe_abort_keeps_images_witness :
  let env := mk_env false
               (λ n, if bool_decide (n = "smi2021_3c.bin"%string)
                     then FwFound blob_3c else FwFail 5) in
  let s := initial_state 0 in
  let pre := [Smi2021Firmware 0x3c "smi2021_3c.bin" 0] in
  let d := Smi2021Firmware 0x3e "smi2021_3e.bin" 0 in
  ∃ s1,
    smi2021_bootloader_probe env good_device s = (Normal (Z.neg 5), s1)
    ∧ firmwares s1 = Z.of_nat (length (found_blobs env pre)) - 1
    ∧ fw_live s1
      = list_to_set (seq (fw_next s) (length (found_blobs env pre)))
        ∪ fw_live s
    ∧ (∀ j b, found_blobs env pre !! j = Some b →
         firmware s1 !! j
         = Some (Some {| fw_addr := fw_next s + j; fw_obj := b |}))
    ∧ klog s1 = klog s ++ (EvRequestFirmware ∘ name <$> pre ++ [d]).
Proof.
  intros env s pre d.
  apply (probe_abort_keeps_images env good_device s pre
           [Smi2021Firmware 0x3f "smi2021_3f.bin" 0] d 5).
  - reflexivity.
  - reflexivity.
  - reflexivity.
  - repeat constructor.
  - reflexivity.
  - discriminate.
Defined.

Lemma index_ok_end {A} (l : list A) : index_ok l (Z.of_nat (length l)) = false.
Proof.
  unfold index_ok. apply andb_false_intro2, Z.ltb_ge. lia.
Qed.

(** X12: a probe that starts while the table of loaded images is full, as
    the probe of a second device does after a first probe found every
    variant, stores through &firmware[ARRAY_SIZE], past the end of the
    array. *)
Theorem probe_full_table_out_of_bounds env (s : kstate)
    (d : smi2021_firmware) (rest : list smi2021_firmware) :
  available_fw s = d :: rest →
  firmwares s = Z.of_nat (length (firmware s)) - 1 →
  fst (probe_all env s) = Fault OutOfBounds
  ∧ host_state (snd (probe_all env s)) = host_state s.
Proof.
  intros Hav Hcnt. unfold probe_all, ARRAY_SIZE_available_fw.
  rewrite run_bind, run_gets, Hav. cbn [length]. rewrite for_each_S.
  unfold probe_one.
  rewrite run_bind, (run_read_available_fw _ d) by (by rewrite Hav).
  rewrite run_bind, run_gets, Hcnt.
  replace (Z.of_nat (length (firmware s)) - 1 + 1)
    with (Z.of_nat (length (firmware s))) by lia.
  rewrite run_bind. unfold request_firmware.
  rewrite run_bind. cbn [log_event modify].
  destruct (fw_loader env (name d)) as [fw|e].
  - rewrite run_bind, run_gets, run_bind. unfold write_firmware.
    rewrite run_bind, run_gets. cbn [firmware with_klog].
    by rewrite index_ok_end.
  - rewrite run_bind. unfold write_firmware.
    rewrite run_bind, run_gets. cbn [firmware with_klog].
    by rewrite index_ok_end.
Qed.

Lemma probe_full_table_out_of_bounds_witness :
  let env := mk_env false three_files in
  let s := snd (probe_all env (initial_state 0)) in
  fst (probe_all env s) = Fault OutOfBounds
  ∧ host_state (snd (probe_all env s)) = host_state s.
Proof.
  intros env s.
  apply (probe_full_table_out_of_bounds env s
           (Smi2021Firmware 0x3c "smi2021_3c.bin" 0)
           [Smi2021Firmware 0x3e "smi2021_3e.bin" 1;
            Smi2021Firmware 0x3f "smi2021_3f.bin" 2]).
  - reflexivity.
  - reflexivity.
Defined.

(** X13: with two or more variants found, the result of the upload is
    dropped: whatever smi2021_choose_firmware returns, also a failed upload,
    what follows the probe loop returns 0. *)
Theorem probe_select_drops_upload_result env udev (s : kstate)
    (ptrs : list fw_ptr) :
  catalog s ptrs →
  (2 ≤ length ptrs)%nat →
  Forall id_ok (available_fw s) →
  kzalloc_ok env = true →
  Forall (λ p, fw_size (fw_obj p) ≤ INT_MAX) ptrs →
  fst (probe_select env udev s) = Normal 0
  ∧ snd (probe_select env udev s) = snd (smi2021_choose_firmware env udev s).
Proof.
  intros Hcat Hlen Hid Hk Hsizes.
  pose proof Hcat as (Hcnt & Hsl & Hptr & Hnd & Hlive).
  destruct (catalog_images s _ _ _ Hsl ptrs) as [Himg Hres]; [lia|done|].
  rewrite <- omap_catalog_view in Himg.
  unfold probe_select. rewrite run_bind, run_gets, Hcnt.
  replace (_ <? 0) with false by (symmetry; apply Z.ltb_ge; lia).
  replace (_ =? 0) with false by (symmetry; apply Z.eqb_neq; lia).
  rewrite run_bind, run_choose_firmware by done.
  destruct (find_preferred _ _) as [img|] eqn:Hfind; [|done].
  assert (img ∈ ptrs) as Hin
    by (rewrite <- Himg; by eapply find_preferred_present).
  rewrite Forall_forall in Hsizes.
  destruct (load_firmware_returns env udev img s Hk (Hsizes img Hin))
    as (rc & s' & ->).
  done.
Qed.

Lemma probe_select_drops_upload_result_witness :
  let env := mk_env false two_files in
  let s := probed_two_files 0x3e in
  fst (probe_select env (device_failing_after 1) s) = Normal 0
  ∧ snd (probe_select env (device_failing_after 1) s)
    = snd (smi2021_choose_firmware env (device_failing_after 1) s).
Proof.
  intros env s.
  apply (probe_select_drops_upload_result env (device_failing_after 1) s
           [ptr_3e; ptr_3f]).
  - apply probed_two_files_catalog.
  - simpl. lia.
  - apply probed_two_files_ids.
  - reflexivity.
  - repeat constructor; vm_compute; discriminate.
Defined.

(** The upload chosen in the state of the witness above fails with -EPIPE
    at its second chunk. *)
Lemma choose_firmware_fails_in_witness :
  fst (smi2021_choose_firmware (mk_env false two_files)
         (device_failing_after 1) (probed_two_files 0x3e)) = Normal (-32).
Proof. by vm_compute. Qed.

(** X14: with exactly one variant found, a failed upload fails the probe:
    a negative result of smi2021_load_firmware is what follows the probe
    loop returns. *)
Theorem probe_select_single_propagates_error env udev (s s' : kstate)
    (p : fw_ptr) (rc : Z) :
  catalog s [p] →
  smi2021_load_firmware env (Some udev) (Some p) s = (Normal rc, s') →
  rc < 0 →
  probe_select env udev s = (Normal rc, s').
Proof.
  intros (Hcnt & Hsl & Hptr & Hnd & Hlive) Hload Hneg.
  unfold probe_select. rewrite run_bind, run_gets, Hcnt.
  change (Z.of_nat (length [p]) - 1) with 0.
  change (0 <? 0) with false. change (0 =? 0) with true. cbv iota.
  rewrite run_bind, (run_read_firmware 0 (Some p)) by (by apply Hptr).
  rewrite run_bind, Hload.
  by replace (rc <? 0) with true by (symmetry; apply Z.ltb_lt; lia).
Qed.

Lemma probe_select_single_propagates_error_witness :
  let env := mk_env false one_file in
  let s := snd (probe_all env (initial_state 0)) in
  probe_select env (device_failing_after 1) s
  = (Normal (-32),
     snd (smi2021_load_firmware env (Some (device_failing_after 1))
            (Some ptr_3e) s)).
Proof.
  intros env s.
  apply (probe_select_single_propagates_error env (device_failing_after 1) s
           _ ptr_3e (-32)).
  - unfold catalog. split; [reflexivity|]. split.
    { apply slots_absent; [reflexivity|].
      apply slots_present; [reflexivity|].
      apply slots_absent; [reflexivity|]. apply slots_nil. }
    split.
    { intros [|j] q Hq; simpl in Hq; try discriminate.
      injection Hq as <-. reflexivity. }
    split.
    { apply (bool_decide_unpack _). vm_compute. exact I. }
    intros q Hq. apply (bool_decide_unpack _).
    apply elem_of_cons in Hq as [->|Hq]; [vm_compute; exact I|].
    by apply elem_of_nil in Hq.
  - reflexivity.
  - lia.
Defined.

Lemma find_preferred_none s v ds :
  (∀ d, d ∈ ds → id d = v → found d = -1) →
  find_preferred v ((λ d, (id d, descriptor_image s d)) <$> ds) = None.
Proof.
  induction ds as [|d ds IH]; intros Habs; [done|].
  rewrite fmap_cons. cbn [find_preferred].
  assert (find_preferred v ((λ d, (id d, descriptor_image s d)) <$> ds)
          = None) as Hrest.
  { apply IH. intros d' Hd'. apply Habs. by right. }
  destruct (descriptor_image s d) as [img|] eqn:Himg; [|done].
  destruct (id d =? v) eqn:Hv; [|done].
  apply Z.eqb_eq in Hv.
  rewrite descriptor_image_absent in Himg; [done|].
  apply Habs; [left|done].
Qed.

(** X15: a preference that names no present variant is ignored without an
    error: when every descriptor whose identifier is firmware_version is
    absent (an unknown identifier, 0, or a variant that is not installed),
    smi2021_choose_firmware sends nothing, changes nothing and returns 0. *)
Theorem choose_firmware_without_match env udev (s : kstate)
    (ptrs : list fw_ptr) :
  catalog s ptrs →
  Forall id_ok (available_fw s) →
  (∀ d, d ∈ available_fw s → id d = firmware_version s → found d = -1) →
  smi2021_choose_firmware env udev s = (Normal 0, s).
Proof.
  intros (Hcnt & Hsl & Hptr & Hnd & Hlive) Hid Habs.
  destruct (catalog_images s _ _ _ Hsl ptrs) as [_ Hres]; [lia|done|].
  rewrite run_choose_firmware by done.
  unfold catalog_view. by rewrite find_preferred_none.
Qed.

Lemma choose_firmware_without_match_witness :
  smi2021_choose_firmware (mk_env false two_files) good_device
    (probed_two_files 0x3c)
  = (Normal 0, probed_two_files 0x3c).
Proof.
  apply (choose_firmware_without_match (mk_env false two_files) good_device
           (probed_two_files 0x3c) [ptr_3e; ptr_3f]).
  - apply probed_two_files_catalog.
  - apply probed_two_files_ids.
  - intros d Hd Hv.
    apply elem_of_cons in Hd as [->|Hd]; [reflexivity|].
    apply elem_of_cons in Hd as [->|Hd]; [discriminate|].
    apply elem_of_cons in Hd as [->|Hd]; [discriminate|].
    by apply elem_of_nil in Hd.
Defined.

(** ** Teardown after a failed attach *)

(** C8: after an attach that failed while probing and a second, successful
    attach, the teardown reports everything reset (every descriptor absent,
    count -1) and releases only the image of the second attach: the image the
    failed attach loaded is never released and stays in slot 0. *)
Theorem disconnect_leaves_image_of_failed_attach :
  fst (smi2021_bootloader_probe (mk_env false first_then_eio) good_device
         (initial_state 0)) = Normal (-5)
  ∧ fst (smi2021_bootloader_probe (mk_env false only_3c) good_device
           after_failed_attach) = Normal 0
  ∧ found <$> available_fw after_second_attach = [1; -1; -1]
  ∧ firmware after_second_attach
    = [Some {| fw_addr := 0; fw_obj := blob_3c |};
       Some {| fw_addr := 1; fw_obj := blob_3c |}; None]
  ∧ smi2021_bootloader_disconnect after_second_attach
    = (Normal tt, after_detach)
  ∧ found <$> available_fw after_detach = [-1; -1; -1]
  ∧ firmwares after_detach = -1
  ∧ firmware after_detach
    = [Some {| fw_addr := 0; fw_obj := blob_3c |}; None; None]
  ∧ elements (fw_live after_detach) = [0%nat]
  ∧ released (klog after_detach) = [1%nat].
Proof. by vm_compute. Qed.

(** ** The image bytes an upload sends *)

Lemma image_bytes_sent_app l l' :
  image_bytes_sent (l ++ l') = image_bytes_sent l ++ image_bytes_sent l'.
Proof.
  unfold image_bytes_sent.
  by rewrite usb_transfers_app, filter_app, fmap_app, join_app.
Qed.

Lemma image_bytes_sent_chunks fw (l : list nat) :
  image_bytes_sent (EvUsb ∘ chunk_xfer fw <$> l)
  = mjoin ((λ i, take 62 (drop (62 * i) (fw_data fw))) <$> l).
Proof.
  unfold image_bytes_sent. rewrite usb_transfers_usb.
  induction l as [|i l IH]; [done|].
  rewrite !fmap_cons, filter_cons_True by done.
  rewrite fmap_cons.
  change (mjoin (?x :: ?k)) with (x ++ mjoin k). by rewrite IH.
Qed.

Lemma image_bytes_sent_full fw (N : nat) :
  length (fw_data fw) = (62 * N)%nat →
  image_bytes_sent (full_upload_log fw N) = fw_data fw.
Proof.
  intros Hsize. unfold full_upload_log, upload_log.
  change (EvUsb handshake_read :: (EvUsb ∘ chunk_xfer fw <$> seq 0 N))
    with ([EvUsb handshake_read] ++ (EvUsb ∘ chunk_xfer fw <$> seq 0 N)).
  rewrite !image_bytes_sent_app, image_bytes_sent_chunks.
  rewrite (slices_concat N _ Hsize).
  change (image_bytes_sent [EvUsb handshake_read]) with (@nil byte).
  change (image_bytes_sent [EvUsb ack_xfer]) with (@nil byte).
  by rewrite app_nil_r.
Qed.

(** X6: the image bytes smi2021_load_firmware sends are the image, in order:
    against any device, the payloads of the chunk writes it issued, without
    their two header bytes and put end to end, are a prefix of the image, and
    when the device answers the handshake with 01 07 and accepts every write
    they are the whole image. *)
Theorem load_firmware_sends_image env udev (p : fw_ptr) (N : nat)
    (s : kstate) :
  kzalloc_ok env = true →
  length (fw_data (fw_obj p)) = (62 * N)%nat →
  fw_size (fw_obj p) ≤ INT_MAX →
  image_bytes_sent (upload_sent env udev p s) `prefix_of` fw_data (fw_obj p)
  ∧ (accepting udev →
     image_bytes_sent (upload_sent env udev p s) = fw_data (fw_obj p)).
Proof.
  intros Hk Hsize Hint. unfold upload_sent. split.
  - destruct (load_firmware_run_any env udev p N s Hk Hsize Hint)
      as (rc & l & -> & [k Hk'] & _).
    cbn [snd klog with_klog]. rewrite drop_app_length.
    exists (image_bytes_sent k).
    by rewrite <- image_bytes_sent_app, <- Hk', image_bytes_sent_full.
  - intros Hdev.
    rewrite (load_firmware_accepting env udev p N s Hdev Hk Hsize Hint).
    cbn [snd klog with_klog]. rewrite drop_app_length.
    by apply image_bytes_sent_full.
Qed.

Lemma load_firmware_sends_image_witness :
  image_bytes_sent
    (upload_sent (mk_env false no_files) (device_failing_after 1) ptr_3e
       (initial_state 0))
  `prefix_of` fw_data (fw_obj ptr_3e)
  ∧ (accepting (device_failing_after 1) →
     image_bytes_sent
       (upload_sent (mk_env false no_files) (device_failing_after 1) ptr_3e
          (initial_state 0))
     = fw_data (fw_obj ptr_3e)).
Proof.
  apply (load_firmware_sends_image (mk_env false no_files)
           (device_failing_after 1) ptr_3e 2 (initial_state 0)).
  - reflexivity.
  - reflexivity.
  - vm_compute. discriminate.
Defined.

(** ** Teardown on any state *)

Lemma disconnect_loop_absent :
  ∀ (rest pre : list smi2021_firmware) (s : kstate),
    available_fw s = pre ++ rest →
    Forall (λ d, found d < 0) rest →
    for_each (length rest) (length pre) disconnect_one s = (Normal None, s).
Proof.
  induction rest as [|d rest IH]; intros pre s Hav Habs; [done|].
  apply Forall_cons in Habs as [Hd Habs].
  cbn [length]. rewrite for_each_S.
  rewrite (run_disconnect_one_absent _ d)
    by (done || (rewrite Hav; apply lookup_middle)).
  rewrite <- (length_snoc pre d). apply IH; [|done].
  by rewrite Hav, <- app_assoc.
Qed.

(** Teardown when every descriptor is absent and the count is reset. *)
Lemma disconnect_all_absent s :
  Forall (λ d, found d < 0) (available_fw s) → firmwares s = -1 →
  smi2021_bootloader_disconnect s = (Normal tt, s).
Proof.
  intros Habs Hcnt.
  unfold smi2021_bootloader_disconnect, ARRAY_SIZE_available_fw.
  rewrite run_bind, run_gets, run_bind.
  change 0%nat with (length (@nil smi2021_firmware)).
  rewrite (disconnect_loop_absent (available_fw s) [] s) by done.
  unfold set_firmwares, modify. f_equal. by apply kstate_eq.
Qed.

(** One turn of the teardown loop, on any state: it faults, or it leaves the
    descriptor absent and the other descriptors as they were. *)
Lemma disconnect_one_any i d s r s' :
  available_fw s !! i = Some d →
  disconnect_one i s = (Normal r, s') →
  r = None
  ∧ ∃ d', available_fw s' = <[i := d']> (available_fw s) ∧ found d' < 0.
Proof.
  intros Hd. unfold disconnect_one.
  rewrite run_bind, (run_read_available_fw _ d) by done.
  destruct (0 <=? found d) eqn:Hf.
  - rewrite run_bind. destruct (read_firmware (found d) s) as [[fw|f] s1] eqn:H1;
      [|done].
    assert (s1 = s) as ->.
    { unfold read_firmware in H1. rewrite run_bind, run_gets in H1.
      destruct (index_ok _ _); by injection H1. }
    rewrite run_bind.
    destruct (release_firmware fw s) as [[[]|f] s2] eqn:H2; [|done].
    assert (available_fw s2 = available_fw s) as Hav2.
    { unfold release_firmware in H2. destruct fw as [p|];
        [|by injection H2 as <-].
      rewrite run_bind, run_gets in H2.
      destruct (decide _); [|done]. by injection H2 as <-. }
    rewrite run_bind.
    destruct (write_firmware (found d) None s2) as [[[]|f] s3] eqn:H3; [|done].
    assert (available_fw s3 = available_fw s2) as Hav3.
    { unfold write_firmware in H3. rewrite run_bind, run_gets in H3.
      destruct (index_ok _ _); [|done]. by injection H3 as <-. }
    rewrite run_bind, (run_write_found _ _ d) by (by rewrite Hav3, Hav2).
    intros [= <- <-]. split; [done|].
    exists (set_found (-1) d). cbn [upd_available_fw available_fw].
    by rewrite Hav3, Hav2.
  - intros [= <- <-]. split; [done|]. exists d.
    apply Z.leb_gt in Hf. by rewrite list_insert_id.
Qed.

Lemma disconnect_loop_any :
  ∀ (rest pre : list smi2021_firmware) (s s' : kstate) (r : option Z),
    available_fw s = pre ++ rest →
    for_each (length rest) (length pre) disconnect_one s = (Normal r, s') →
    r = None
    ∧ ∃ rest', available_fw s' = pre ++ rest'
               ∧ Forall (λ d, found d < 0) rest'.
Proof.
  induction rest as [|d rest IH]; intros pre s s' r Hav Hrun.
  - simpl in Hrun. injection Hrun as <- <-. split; [done|].
    exists []. by rewrite Hav.
  - cbn [length] in Hrun. rewrite for_each_S in Hrun.
    destruct (disconnect_one (length pre) s) as [[r1|f] s1] eqn:H1; [|done].
    destruct (disconnect_one_any (length pre) d s r1 s1)
      as (-> & d' & Hav1 & Hd'); [by rewrite Hav; apply lookup_middle|done|].
    rewrite Hav, insert_middle in Hav1.
    rewrite <- (length_snoc pre d') in Hrun.
    destruct (IH (pre ++ [d']) s1 s' r Hav1 Hrun) as (-> & rest' & Hav' & Habs).
    split; [done|]. exists (d' :: rest').
    split; [by rewrite Hav', <- app_assoc|]. by constructor.
Qed.

(** X16: teardown is idempotent on every state: whenever
    smi2021_bootloader_disconnect returns, it leaves every descriptor absent
    and the count at -1, and running it again changes nothing: no descriptor,
    no slot, no count, and no firmware object is released a second time. *)
Theorem disconnect_idempotent (s s1 : kstate) :
  smi2021_bootloader_disconnect s = (Normal tt, s1) →
  Forall (λ d, found d < 0) (available_fw s1)
  ∧ firmwares s1 = -1
  ∧ smi2021_bootloader_disconnect s1 = (Normal tt, s1).
Proof.
  unfold smi2021_bootloader_disconnect at 1, ARRAY_SIZE_available_fw.
  rewrite run_bind, run_gets, run_bind.
  destruct (for_each _ _ _ s) as [[r|f] s'] eqn:Hloop; [|done].
  change 0%nat with (length (@nil smi2021_firmware)) in Hloop.
  destruct (disconnect_loop_any (available_fw s) [] s s' r eq_refl Hloop)
    as (-> & rest' & Hav & Habs).
  unfold set_firmwares, modify. intros [= <-].
  assert (Forall (λ d, found d < 0) (available_fw (upd_firmwares (-1) s')))
    as Habs' by (cbn [upd_firmwares available_fw]; by rewrite Hav).
  split; [done|]. split; [done|].
  by apply disconnect_all_absent.
Qed.

Lemma disconnect_idempotent_witness :
  Forall (λ d, found d < 0) (available_fw after_detach)
  ∧ firmwares after_detach = -1
  ∧ smi2021_bootloader_disconnect after_detach = (Normal tt, after_detach).
Proof.
  apply (disconnect_idempotent after_second_attach after_detach).
  by vm_compute.
Defined.
